(** * ia64 ACPI P-state driver (drivers/cpufreq/ia64-acpi-cpufreq.c)

    A shallow embedding of the driver's transition engine and the
    properties of its specification.  C integers are mathematical integers
    with every conversion the C code performs written out; the kernel
    services and the firmware (PAL) procedures the driver calls are
    answers of a [platform]; the driver's global array [acpi_io_data] and
    the calling task's affinity mask live in a [kernel] state that every
    function threads through. *)

From stdpp Require Import base numbers option list gmap.

Open Scope Z_scope.

(** ** C integer conversions (ia64 is LP64) *)

Module C.

(** Conversion to [u32] / [unsigned int]. *)
Definition u32 (z : Z) : Z := z mod 2 ^ 32.

(** Conversion to [u64] / [unsigned long]. *)
Definition u64 (z : Z) : Z := z mod 2 ^ 64.

(** Conversion to [int] (two's complement, as gcc defines it). *)
Definition int (z : Z) : Z := (z + 2 ^ 31) mod 2 ^ 32 - 2 ^ 31.

(** The C truth value of an integer used as a condition. *)
Definition nonzero (z : Z) : bool := negb (z =? 0).

(** [a[i]]: reading outside the array is undefined behaviour, [None]. *)
Definition subscript {A : Type} (a : list A) (i : Z) : option A :=
  if i <? 0 then None else a !! Z.to_nat i.

End C.

Import C.

(** ** Constants of headers the driver includes *)

(** errno values (include/uapi/asm-generic/errno-base.h). *)
Definition EAGAIN : Z := 11.
Definition ENOMEM : Z := 12.
Definition ENODEV : Z := 19.

(** [ACPI_ADR_SPACE_FIXED_HARDWARE] (include/acpi/actypes.h). *)
Definition ACPI_ADR_SPACE_FIXED_HARDWARE : Z := 0x7F.

(** [CPUFREQ_TABLE_END], [~1u] (include/linux/cpufreq.h). *)
Definition CPUFREQ_TABLE_END : Z := 0xFFFFFFFE.

(** ** Data model *)

(** Modelled from the spec: [struct acpi_pct_register] is declared in
    include/acpi/processor.h; the driver reads only the address-space
    classifier of a register. *)
Record acpi_pct_register := {
  space_id : Z
}.

(** Modelled from the spec: [struct acpi_processor_px], one operating point
    as the platform delivers it (include/acpi/processor.h), with the field
    names this driver uses.  The fields are 64-bit integers there; the
    model does not rely on their width: each conversion the driver applies
    to them is written where it happens. *)
Record acpi_processor_px := {
  core_frequency : Z;
  power : Z;
  transition_latency : Z;
  bus_master_latency : Z;
  control : Z;
  status : Z
}.

(** Modelled from the spec: [struct acpi_processor_performance]
    (include/acpi/processor.h).  The array [states] and its length
    [state_count] are one list. *)
Record acpi_processor_performance := {
  state : Z;
  control_register : acpi_pct_register;
  status_register : acpi_pct_register;
  states : list acpi_processor_px
}.

Definition state_count (p : acpi_processor_performance) : Z :=
  Z.of_nat (length (states p)).

(** [struct cpufreq_acpi_io]. *)
Record cpufreq_acpi_io := {
  acpi_data : acpi_processor_performance;
  resume : Z
}.

(** [data->resume = v]. *)
Definition set_resume (v : Z) (data : cpufreq_acpi_io) : cpufreq_acpi_io :=
  {| acpi_data := acpi_data data; resume := v |}.

(** [data->acpi_data.state = v]. *)
Definition set_state (v : Z) (data : cpufreq_acpi_io) : cpufreq_acpi_io :=
  {| acpi_data :=
       {| state := v;
          control_register := control_register (acpi_data data);
          status_register := status_register (acpi_data data);
          states := states (acpi_data data) |};
     resume := resume data |}.

(** The part of [struct cpufreq_policy] the driver touches. *)
Record cpufreq_policy := {
  cpu : Z;
  cpuinfo_transition_latency : Z;
  freq_table : option (list Z)
}.

(** A firmware call the driver issued; the kernel state keeps their
    sequence so that "a commit was performed" can be stated. *)
Inductive pal_call :=
  | PAL_SET_PSTATE (value : Z)
  | PAL_GET_PSTATE.

(** What the driver's functions read and write besides their arguments:
    [current->cpus_allowed], the global [acpi_io_data] (an absent key is a
    NULL slot) and the firmware calls issued so far, oldest first. *)
Record kernel := {
  cpus_allowed : gset Z;
  acpi_io_data : gmap Z cpufreq_acpi_io;
  pal_calls : list pal_call
}.

(** The answers of the machine and of the rest of the kernel during one
    call of the driver.  Every theorem quantifies over them. *)
Record platform := {
  (** [smp_processor_id()] once [set_cpus_allowed_ptr] has returned *)
  smp_processor_id : Z;
  (** status of [ia64_pal_set_pstate] for the value it is given *)
  ia64_pal_set_pstate : Z → Z;
  (** status of [ia64_pal_get_pstate] and the index it stores *)
  ia64_pal_get_pstate : Z * Z;
  (** whether [kzalloc] of the [cpufreq_acpi_io] object returns memory *)
  kzalloc : bool;
  (** result of [acpi_processor_register_performance] for a cpu and what
      it stores in [data->acpi_data] *)
  acpi_processor_register_performance : Z → Z * acpi_processor_performance;
  (** whether [kcalloc] of the frequency table returns memory *)
  kcalloc : bool;
  (** result of [cpufreq_table_validate_and_show] for a table *)
  cpufreq_table_validate_and_show : list Z → Z
}.

(** ** The monad of driver code: kernel state, and [None] for undefined
    behaviour (a NULL or out-of-bounds access) *)

Definition kern (A : Type) : Type := kernel → option (A * kernel).

#[global] Instance kern_ret : MRet kern := λ A a k, Some (a, k).

#[global] Instance kern_bind : MBind kern := λ A B f m k,
  match m k with
  | Some (a, k') => f a k'
  | None => None
  end.

(** A pure read that may be undefined. *)
Definition lift {A : Type} (o : option A) : kern A := λ k,
  match o with
  | Some a => Some (a, k)
  | None => None
  end.

(** [*data] for a pointer that may be NULL. *)
Definition deref (data : option cpufreq_acpi_io) : kern cpufreq_acpi_io :=
  lift data.

(** [current->cpus_allowed]. *)
Definition get_cpus_allowed : kern (gset Z) := λ k, Some (cpus_allowed k, k).

(** Modelled from the spec: [set_cpus_allowed_ptr(current, mask)]
    (kernel/sched/core.c) makes [mask] the affinity of the calling
    context; where the context then runs is [smp_processor_id]. *)
Definition set_cpus_allowed_ptr (mask : gset Z) : kern unit := λ k,
  Some (tt, {| cpus_allowed := mask;
               acpi_io_data := acpi_io_data k;
               pal_calls := pal_calls k |}).

(** [cpumask_of(cpu)]. *)
Definition cpumask_of (cpu : Z) : gset Z := {[ cpu ]}.

(** Records a firmware call. *)
Definition issue (c : pal_call) : kern unit := λ k,
  Some (tt, {| cpus_allowed := cpus_allowed k;
               acpi_io_data := acpi_io_data k;
               pal_calls := pal_calls k ++ [c] |}).

(** [acpi_io_data[cpu]]. *)
Definition read_slot (cpu : Z) : kern (option cpufreq_acpi_io) := λ k,
  Some (acpi_io_data k !! cpu, k).

(** [acpi_io_data[cpu] = data]; [None] stores NULL. *)
Definition write_slot (cpu : Z) (data : option cpufreq_acpi_io) : kern unit :=
  λ k,
  Some (tt, {| cpus_allowed := cpus_allowed k;
               acpi_io_data :=
                 match data with
                 | Some d => <[cpu := d]> (acpi_io_data k)
                 | None => delete cpu (acpi_io_data k)
                 end;
               pal_calls := pal_calls k |}).

(** ** Hardware access *)

(** [processor_set_pstate], source lines 42-58. *)
Definition processor_set_pstate (hw : platform) (value : Z) : kern Z :=
  issue (PAL_SET_PSTATE (u64 value));;
  let retval := ia64_pal_set_pstate hw (u64 value) in
  if nonzero retval then mret (- ENODEV) else mret (int retval).

(** [processor_get_pstate], source lines 61-79: the result and [*value]. *)
Definition processor_get_pstate (hw : platform) : kern (Z * Z) :=
  issue PAL_GET_PSTATE;;
  let '(retval, pstate_index) := ia64_pal_get_pstate hw in
  mret (int retval, u32 pstate_index).

(** ** Reading the current frequency *)

(** The loop of [extract_clock] with [n] iterations left at index [i], and
    the fallback [states[i-1]] after it.  The function returns [unsigned]. *)
Fixpoint extract_clock_loop (states : list acpi_processor_px) (value : Z)
    (n : nat) (i : Z) : option Z :=
  match n with
  | O => px ← subscript states (i - 1); Some (u32 (core_frequency px))
  | S n' =>
      px ← subscript states i;
      if value =? status px then Some (u32 (core_frequency px))
      else extract_clock_loop states value n' (i + 1)
  end.

(** [extract_clock], source lines 83-98. *)
Definition extract_clock (data : cpufreq_acpi_io) (value : Z) (cpu : Z)
    : option Z :=
  extract_clock_loop (states (acpi_data data)) value
    (Z.to_nat (state_count (acpi_data data))) 0.

(** [processor_get_freq], source lines 101-133.  [ret] is an [int]; the
    function returns [unsigned int]. *)
Definition processor_get_freq (hw : platform) (data : option cpufreq_acpi_io)
    (cpu : Z) : kern Z :=
  saved_mask ← get_cpus_allowed;
  set_cpus_allowed_ptr (cpumask_of cpu);;
  ret ← (if negb (u32 (smp_processor_id hw) =? cpu) then mret 0
         else
           '(ret, value) ← processor_get_pstate hw;
           if nonzero ret then
             set_cpus_allowed_ptr saved_mask;;
             mret 0
           else
             d ← deref data;
             clock_freq ← lift (extract_clock d value cpu);
             mret (int (u64 (clock_freq * 1000))));
  set_cpus_allowed_ptr saved_mask;;
  mret (u32 ret).

(** ** Requesting a transition *)

(** [processor_set_freq] from "Transitioning from" to [retval = 0], source
    lines 167-188: the write of the target state's control value. *)
Definition processor_set_freq_write (hw : platform) (data : cpufreq_acpi_io)
    (st : Z) : kern (Z * cpufreq_acpi_io) :=
  px ← lift (subscript (states (acpi_data data)) st);
  let value := u32 (control px) in
  ret ← processor_set_pstate hw value;
  if nonzero ret then mret (- ENODEV, data)
  else mret (0, set_state (u32 st) data).

(** [processor_set_freq], source lines 136-193, for the [int state] [st].
    Returns [retval] and the object [data] points to. *)
Definition processor_set_freq (hw : platform) (data : option cpufreq_acpi_io)
    (policy : cpufreq_policy) (st : Z)
    : kern (Z * option cpufreq_acpi_io) :=
  saved_mask ← get_cpus_allowed;
  set_cpus_allowed_ptr (cpumask_of (cpu policy));;
  out ← (if negb (u32 (smp_processor_id hw) =? cpu policy) then
           mret (- EAGAIN, data)
         else
           d ← deref data;
           '(retval, d') ←
             (if u32 st =? state (acpi_data d) then
                if nonzero (resume d) then
                  processor_set_freq_write hw (set_resume 0 d) st
                else mret (0, d)
              else processor_set_freq_write hw d st);
           mret (retval, Some d'));
  set_cpus_allowed_ptr saved_mask;;
  mret out.

(** ** Driver callbacks *)

(** [acpi_cpufreq_get], source lines 196-205. *)
Definition acpi_cpufreq_get (hw : platform) (cpu : Z) : kern Z :=
  data ← read_slot cpu;
  processor_get_freq hw data cpu.

(** [acpi_cpufreq_target], source lines 208-214; [index] is
    [unsigned int], the callee takes an [int].  The object the slot points
    to is the one [processor_set_freq] updated. *)
Definition acpi_cpufreq_target (hw : platform) (policy : cpufreq_policy)
    (index : Z) : kern Z :=
  data ← read_slot (cpu policy);
  '(retval, data') ← processor_set_freq hw data policy (int index);
  match data' with
  | Some d => write_slot (cpu policy) (Some d)
  | None => mret tt
  end;;
  mret retval.

(** The transition latency loop, source lines 266-274; the policy field is
    [unsigned int]. *)
Definition detect_transition_latency (states : list acpi_processor_px) : Z :=
  foldl (λ latency px,
           if u64 (transition_latency px * 1000) >? latency
           then u32 (u64 (transition_latency px * 1000))
           else latency)
        0 states.

(** The table initialisation loop, source lines 276-285; [frequency] is
    [unsigned int]. *)
Definition table_init (states : list acpi_processor_px) : list Z :=
  map (λ px, u32 (u64 (core_frequency px * 1000))) states
  ++ [CPUFREQ_TABLE_END].

(** The error exits [err_unreg]/[err_free], source lines 315-321; [result]
    is [unsigned int], the function returns [int]. *)
Definition init_fail (policy : cpufreq_policy) (result : Z)
    : kern (Z * cpufreq_policy) :=
  write_slot (cpu policy) None;;
  mret (int (u32 result), policy).

(** [acpi_cpufreq_cpu_init], source lines 216-322.  Returns the result and
    the policy object as the function leaves it. *)
Definition acpi_cpufreq_cpu_init (hw : platform) (policy : cpufreq_policy)
    : kern (Z * cpufreq_policy) :=
  if negb (kzalloc hw) then mret (- ENOMEM, policy)
  else
    let '(result, perf) :=
      acpi_processor_register_performance hw (cpu policy) in
    let data := {| acpi_data := perf; resume := 0 |} in
    write_slot (cpu policy) (Some data);;
    if nonzero (u32 result) then init_fail policy result
    else if state_count perf <=? 1 then init_fail policy (- ENODEV)
    else if negb (space_id (control_register perf)
                    =? ACPI_ADR_SPACE_FIXED_HARDWARE)
            || negb (space_id (status_register perf)
                       =? ACPI_ADR_SPACE_FIXED_HARDWARE)
    then init_fail policy (- ENODEV)
    else if negb (kcalloc hw) then init_fail policy (- ENOMEM)
    else
      let policy :=
        {| cpu := cpu policy;
           cpuinfo_transition_latency :=
             detect_transition_latency (states perf);
           freq_table := freq_table policy |} in
      let table := table_init (states perf) in
      let result := cpufreq_table_validate_and_show hw table in
      if nonzero (u32 result) then init_fail policy result
      else
        let policy :=
          {| cpu := cpu policy;
             cpuinfo_transition_latency := cpuinfo_transition_latency policy;
             freq_table := Some table |} in
        write_slot (cpu policy) (Some (set_resume 1 data));;
        mret (int (u32 result), policy).

(** [acpi_cpufreq_cpu_exit], source lines 325-341.  The memory it frees
    is the object of the slot and the frequency table; neither is
    reachable afterwards. *)
Definition acpi_cpufreq_cpu_exit (policy : cpufreq_policy) : kern Z :=
  data ← read_slot (cpu policy);
  match data with
  | Some _ => write_slot (cpu policy) None
  | None => mret tt
  end;;
  mret 0.

(** ** Vocabulary of the properties *)

(** The affinity pin succeeded: after [set_cpus_allowed_ptr] the caller
    runs on [cpu] (the test of source lines 115 and 151 passes). *)
Definition pinned (hw : platform) (cpu : Z) : Prop :=
  u32 (smp_processor_id hw) = cpu.

(** [index] is a valid index into the table of [d], as the cpufreq core
    guarantees for [->target_index], and is representable as the [int]
    [processor_set_freq] receives. *)
Definition valid_index (d : cpufreq_acpi_io) (index : Z) : Prop :=
  0 ≤ index < state_count (acpi_data d) ∧ index < 2 ^ 31.

(** The kernel state after one more firmware call. *)
Definition after_call (c : pal_call) (k : kernel) : kernel :=
  {| cpus_allowed := cpus_allowed k;
     acpi_io_data := acpi_io_data k;
     pal_calls := pal_calls k ++ [c] |}.

(** The kernel state with the object of slot [cpu] replaced. *)
Definition with_slot (cpu : Z) (d : cpufreq_acpi_io) (k : kernel) : kernel :=
  {| cpus_allowed := cpus_allowed k;
     acpi_io_data := <[cpu := d]> (acpi_io_data k);
     pal_calls := pal_calls k |}.

(** The kernel state with slot [cpu] set to NULL. *)
Definition without_slot (cpu : Z) (k : kernel) : kernel :=
  {| cpus_allowed := cpus_allowed k;
     acpi_io_data := delete cpu (acpi_io_data k);
     pal_calls := pal_calls k |}.

(** The object [acpi_cpufreq_cpu_init] leaves in the slot when it
    succeeds with the platform data [perf]. *)
Definition activated (perf : acpi_processor_performance) : cpufreq_acpi_io :=
  {| acpi_data := perf; resume := 1 |}.

(** The policy object [acpi_cpufreq_cpu_init] leaves when it succeeds
    with the platform data [perf]. *)
Definition activated_policy (policy : cpufreq_policy)
    (perf : acpi_processor_performance) : cpufreq_policy :=
  {| cpu := cpu policy;
     cpuinfo_transition_latency := detect_transition_latency (states perf);
     freq_table := Some (table_init (states perf)) |}.

(** The policy object when [cpufreq_table_validate_and_show] failed: the
    transition latency is already written, the table is not. *)
Definition latency_only_policy (policy : cpufreq_policy)
    (perf : acpi_processor_performance) : cpufreq_policy :=
  {| cpu := cpu policy;
     cpuinfo_transition_latency := detect_transition_latency (states perf);
     freq_table := freq_table policy |}.

(** ** Concrete platforms and tables *)

Module Scenario.

Definition fixed_hardware : acpi_pct_register :=
  {| space_id := ACPI_ADR_SPACE_FIXED_HARDWARE |}.

Definition system_io : acpi_pct_register := {| space_id := 1 |}.

Definition point (mhz ctl sts : Z) : acpi_processor_px :=
  {| core_frequency := mhz; power := 90000; transition_latency := 10;
     bus_master_latency := 10; control := ctl; status := sts |}.

(** The four operating points of the specification's scenario. *)
Definition four_points : list acpi_processor_px :=
  [point 3000 0x1 0x10; point 2600 0x2 0x20;
   point 2200 0x3 0x30; point 1800 0x4 0x40].

Definition perf (creg sreg : acpi_pct_register)
    (l : list acpi_processor_px) : acpi_processor_performance :=
  {| state := 0; control_register := creg; status_register := sreg;
     states := l |}.

(** A platform that runs the caller on [on_cpu], answers the two PAL
    calls with [set_status] and [get_answer], grants every allocation
    and registers [p] for every processor. *)
Definition machine (on_cpu : Z) (set_status : Z → Z) (get_answer : Z * Z)
    (p : acpi_processor_performance) : platform :=
  {| smp_processor_id := on_cpu;
     ia64_pal_set_pstate := set_status;
     ia64_pal_get_pstate := get_answer;
     kzalloc := true;
     acpi_processor_register_performance := λ _, (0, p);
     kcalloc := true;
     cpufreq_table_validate_and_show := λ _, 0 |}.

Definition table4 : acpi_processor_performance :=
  perf fixed_hardware fixed_hardware four_points.

(** Everything succeeds, the caller lands on processor 0. *)
Definition hw_ok : platform := machine 0 (λ _, 0) (0, 0x20) table4.

(** The caller finds itself on processor 1 after asking for 0. *)
Definition hw_race : platform := machine 1 (λ _, 0) (0, 0x20) table4.

(** PAL rejects every commit. *)
Definition hw_commit_fails : platform :=
  machine 0 (λ _, -3) (0, 0x20) table4.

(** PAL fails the status read. *)
Definition hw_read_fails : platform :=
  machine 0 (λ _, 0) (-3, 0) table4.

(** The status read returns a code that is in no table. *)
Definition hw_unknown_status : platform :=
  machine 0 (λ _, 0) (0, 0x99) table4.

(** The platform supplies a single operating point. *)
Definition hw_one_state : platform :=
  machine 0 (λ _, 0) (0, 0x10)
    (perf fixed_hardware fixed_hardware [point 3000 0x1 0x10]).

(** The control register is in system I/O space. *)
Definition hw_system_io : platform :=
  machine 0 (λ _, 0) (0, 0x10) (perf system_io fixed_hardware four_points).

Definition policy0 : cpufreq_policy :=
  {| cpu := 0; cpuinfo_transition_latency := 0; freq_table := None |}.

(** No processor is managed; the caller may run on processors 0 and 1. *)
Definition k_boot : kernel :=
  {| cpus_allowed := {[ 0; 1 ]}; acpi_io_data := ∅; pal_calls := [] |}.

(** Processor 0 is managed with [table4] and the resume flag [flag]. *)
Definition k_managed (flag : Z) : kernel :=
  {| cpus_allowed := {[ 0; 1 ]};
     acpi_io_data := {[ 0 := {| acpi_data := table4; resume := flag |} ]};
     pal_calls := [] |}.

(** Three points with status values 0x10, 0x20, 0x30; the second one's
    frequency times 1000 does not fit 32 bits. *)
Definition fast_points : list acpi_processor_px :=
  [point 3000 0x1 0x10; point 4294968 0x2 0x20; point 2200 0x3 0x30].

Definition k_fast : kernel :=
  {| cpus_allowed := {[ 0; 1 ]};
     acpi_io_data :=
       {[ 0 := {| acpi_data := perf fixed_hardware fixed_hardware fast_points;
                  resume := 0 |} ]};
     pal_calls := [] |}.

(** Two points; the control value of the first needs more than 32 bits
    (the fields of an operating point are 64-bit integers evaluated from
    the firmware's table). *)
Definition wide_points : list acpi_processor_px :=
  [point 3000 0x100000005 0x10; point 2600 0x2 0x20].

Definition hw_wide : platform :=
  machine 0 (λ _, 0) (0, 0x10)
    (perf fixed_hardware fixed_hardware wide_points).

(** The object of processor 0 with [table4] and the resume flag [flag]. *)
Definition entry (flag : Z) : cpufreq_acpi_io :=
  {| acpi_data := table4; resume := flag |}.

(** [k_managed 1] after a successful transition of processor 0 to state 2. *)
Definition k_moved : kernel :=
  with_slot 0 (set_state 2 (entry 1))
    (after_call (PAL_SET_PSTATE 3) (k_managed 1)).

(** Registration of the performance data fails with [-ENODEV]. *)
Definition hw_no_pstates : platform :=
  {| smp_processor_id := 0;
     ia64_pal_set_pstate := λ _, 0;
     ia64_pal_get_pstate := (0, 0x10);
     kzalloc := true;
     acpi_processor_register_performance := λ _, (- ENODEV, table4);
     kcalloc := true;
     cpufreq_table_validate_and_show := λ _, 0 |}.

End Scenario.

(** Unfolds the monad and the accesses to the kernel state. *)
Ltac kern_unfold :=
  unfold mbind, kern_bind, mret, kern_ret, read_slot, get_cpus_allowed,
    set_cpus_allowed_ptr, deref, lift, issue, write_slot; simpl.

(** ** Integer conversions *)

Section Conversions.

Lemma u32_small z : 0 ≤ z < 2 ^ 32 → u32 z = z.
Proof. intros. unfold u32. apply Z.mod_small. lia. Qed.

Lemma u32_range z : 0 ≤ u32 z < 2 ^ 32.
Proof. unfold u32. apply Z.mod_pos_bound. lia. Qed.

Lemma u64_u32 z : u64 (u32 z) = u32 z.
Proof.
  unfold u64. apply Z.mod_small.
  pose proof (u32_range z). lia.
Qed.

Lemma int_small z : - 2 ^ 31 ≤ z < 2 ^ 31 → int z = z.
Proof. intros. unfold int. rewrite Z.mod_small; lia. Qed.

Lemma u32_int z : u32 (int z) = u32 z.
Proof.
  unfold u32, int. rewrite Zminus_mod_idemp_l.
  f_equal. lia.
Qed.

Lemma u32_u64 z : u32 (u64 z) = u32 z.
Proof.
  unfold u32, u64. apply Z.mod_mod_divide.
  exists (2 ^ 32). lia.
Qed.

Lemma u32_mul_l a b : u32 (u32 a * b) = u32 (a * b).
Proof. unfold u32. apply Zmult_mod_idemp_l. Qed.

(** What [processor_get_freq] makes of the [unsigned] that
    [extract_clock] returns. *)
Lemma reported_frequency cf :
  u32 (int (u64 (u32 cf * 1000))) = (cf * 1000) mod 2 ^ 32.
Proof. rewrite u32_int, u32_u64, u32_mul_l. reflexivity. Qed.

Lemma valid_index_int d index :
  valid_index d index → int index = index ∧ u32 index = index.
Proof.
  intros [[??] ?]. split; [apply int_small | apply u32_small]; lia.
Qed.

Lemma subscript_lookup {A} (a : list A) i :
  0 ≤ i → subscript a i = a !! Z.to_nat i.
Proof.
  intros. unfold subscript. destruct (Z.ltb_spec i 0); [lia | done].
Qed.

End Conversions.

(** ** How the driver's functions run

    Each function is unfolded once into the outcomes of its paths; the
    properties below are read off these equations. *)

Lemma kernel_eta k :
  {| cpus_allowed := cpus_allowed k; acpi_io_data := acpi_io_data k;
     pal_calls := pal_calls k |} = k.
Proof. by destruct k. Qed.

Lemma nonzero_false z : nonzero z = false → z = 0.
Proof. unfold nonzero. intros H. apply negb_false_iff in H. lia. Qed.

Lemma nonzero_true z : nonzero z = true → z ≠ 0.
Proof. unfold nonzero. intros H. apply negb_true_iff in H. lia. Qed.

Lemma processor_set_pstate_run hw value k :
  processor_set_pstate hw (u32 value) k =
    Some (if nonzero (ia64_pal_set_pstate hw (u32 value)) then - ENODEV else 0,
          after_call (PAL_SET_PSTATE (u32 value)) k).
Proof.
  unfold processor_set_pstate. kern_unfold. rewrite u64_u32.
  destruct (nonzero _) eqn:E; [done|].
  apply nonzero_false in E. by rewrite E.
Qed.

Lemma processor_set_freq_write_run hw d st k :
  processor_set_freq_write hw d st k =
    px ← subscript (states (acpi_data d)) st;
    Some (if nonzero (ia64_pal_set_pstate hw (u32 (control px)))
          then (- ENODEV, d) else (0, set_state (u32 st) d),
          after_call (PAL_SET_PSTATE (u32 (control px))) k).
Proof.
  unfold processor_set_freq_write. kern_unfold.
  destruct (subscript _ st) as [px|]; simpl; [|done].
  rewrite processor_set_pstate_run.
  by destruct (nonzero (ia64_pal_set_pstate _ _)).
Qed.

(** The paths of [acpi_cpufreq_target] on a managed processor: the
    migration race, the fast path, and the write with its two outcomes. *)
Lemma target_run hw policy index k d :
  acpi_io_data k !! cpu policy = Some d →
  acpi_cpufreq_target hw policy index k =
    if negb (u32 (smp_processor_id hw) =? cpu policy) then
      Some (- EAGAIN, k)
    else if (u32 (int index) =? state (acpi_data d))
            && negb (nonzero (resume d)) then
      Some (0, k)
    else
      let d0 :=
        if u32 (int index) =? state (acpi_data d) then set_resume 0 d
        else d in
      px ← subscript (states (acpi_data d)) (int index);
      let k1 := after_call (PAL_SET_PSTATE (u32 (control px))) k in
      if nonzero (ia64_pal_set_pstate hw (u32 (control px))) then
        Some (- ENODEV, with_slot (cpu policy) d0 k1)
      else
        Some (0, with_slot (cpu policy) (set_state (u32 (int index)) d0) k1).
Proof.
  intros Hd.
  unfold acpi_cpufreq_target, processor_set_freq. kern_unfold. rewrite Hd.
  destruct (u32 (smp_processor_id hw) =? cpu policy); simpl.
  2:{ rewrite insert_id by done. by rewrite kernel_eta. }
  destruct (u32 (int index) =? state (acpi_data d)); simpl.
  - destruct (nonzero (resume d)); simpl.
    + rewrite processor_set_freq_write_run. simpl.
      destruct (subscript _ (int index)) as [px|]; simpl; [|done].
      by destruct (nonzero (ia64_pal_set_pstate _ _)).
    + rewrite insert_id by done. by rewrite kernel_eta.
  - rewrite processor_set_freq_write_run. simpl.
    destruct (subscript _ (int index)) as [px|]; simpl; [|done].
    by destruct (nonzero (ia64_pal_set_pstate _ _)).
Qed.

Lemma processor_get_pstate_run hw k :
  processor_get_pstate hw k =
    Some ((int (ia64_pal_get_pstate hw).1, u32 (ia64_pal_get_pstate hw).2),
          after_call PAL_GET_PSTATE k).
Proof.
  unfold processor_get_pstate. kern_unfold.
  by destruct (ia64_pal_get_pstate hw).
Qed.

(** The paths of [acpi_cpufreq_get]. *)
Lemma get_run hw cpu k :
  acpi_cpufreq_get hw cpu k =
    if negb (u32 (smp_processor_id hw) =? cpu) then Some (0, k)
    else
      let k1 := after_call PAL_GET_PSTATE k in
      if nonzero (int (ia64_pal_get_pstate hw).1) then Some (0, k1)
      else
        d ← acpi_io_data k !! cpu;
        clock_freq ← extract_clock d (u32 (ia64_pal_get_pstate hw).2) cpu;
        Some (u32 (int (u64 (clock_freq * 1000))), k1).
Proof.
  unfold acpi_cpufreq_get, processor_get_freq. kern_unfold.
  destruct (u32 (smp_processor_id hw) =? cpu); simpl.
  2:{ by rewrite kernel_eta. }
  rewrite processor_get_pstate_run. simpl.
  destruct (nonzero (int _)); simpl; [done|].
  destruct (acpi_io_data k !! cpu) as [d|]; simpl; [|done].
  by destruct (extract_clock d _ cpu).
Qed.

(** The loop of [extract_clock] that has passed the entries [pre] without
    a match finds the first match of [rest], or ends on the last entry. *)
Lemma extract_clock_loop_app pre rest value :
  extract_clock_loop (pre ++ rest) value (length rest)
    (Z.of_nat (length pre)) =
  match list_find (λ px, value = status px) rest with
  | Some (_, px) => Some (u32 (core_frequency px))
  | None => px ← last (pre ++ rest); Some (u32 (core_frequency px))
  end.
Proof.
  revert pre. induction rest as [|x rest IH]; intros pre; simpl.
  - rewrite app_nil_r. unfold subscript.
    destruct pre as [|p pre _] using rev_ind; [done|].
    rewrite length_app, last_snoc. simpl.
    destruct (Z.ltb_spec (Z.of_nat (length pre + 1) - 1) 0); [lia|].
    replace (Z.to_nat (Z.of_nat (length pre + 1) - 1)) with (length pre)
      by lia.
    by rewrite list_lookup_middle.
  - rewrite subscript_lookup by lia. rewrite Nat2Z.id.
    rewrite list_lookup_middle by done. simpl.
    case_decide as Hx.
    + rewrite Hx, Z.eqb_refl. done.
    + destruct (Z.eqb_spec value (status x)); [done|].
      specialize (IH (pre ++ [x])).
      rewrite <- app_assoc in IH. simpl in IH.
      rewrite length_app in IH. simpl in IH.
      replace (Z.of_nat (length pre) + 1) with (Z.of_nat (length pre + 1))
        by lia.
      rewrite IH. by destruct (list_find _ rest) as [[??]|].
Qed.

Lemma extract_clock_find d value cpu :
  extract_clock d value cpu =
  match list_find (λ px, value = status px) (states (acpi_data d)) with
  | Some (_, px) => Some (u32 (core_frequency px))
  | None => px ← last (states (acpi_data d)); Some (u32 (core_frequency px))
  end.
Proof.
  unfold extract_clock, state_count. rewrite Nat2Z.id.
  apply (extract_clock_loop_app []).
Qed.

Lemma int_zero_u32 z : int z = 0 → u32 z = 0.
Proof. intros H. by rewrite <- u32_int, H. Qed.

Lemma int_u32_nonzero z : nonzero (u32 z) = true → int (u32 z) ≠ 0.
Proof.
  intros E H. apply int_zero_u32 in H.
  rewrite u32_small in H by apply u32_range.
  rewrite H in E. discriminate.
Qed.

Lemma init_fail_run policy result d k :
  init_fail policy result (with_slot (cpu policy) d k) =
    Some ((int (u32 result), policy), without_slot (cpu policy) k).
Proof.
  unfold init_fail, with_slot, without_slot. kern_unfold.
  by rewrite delete_insert_eq.
Qed.

(** The two capability checks of [acpi_cpufreq_cpu_init]. *)
Lemma init_rejects hw policy k perf :
  kzalloc hw = true →
  acpi_processor_register_performance hw (cpu policy) = (0, perf) →
  state_count perf ≤ 1
  ∨ space_id (control_register perf) ≠ ACPI_ADR_SPACE_FIXED_HARDWARE
  ∨ space_id (status_register perf) ≠ ACPI_ADR_SPACE_FIXED_HARDWARE →
  acpi_cpufreq_cpu_init hw policy k =
    Some ((- ENODEV, policy), without_slot (cpu policy) k).
Proof.
  intros Hz Hr Hbad. unfold acpi_cpufreq_cpu_init.
  rewrite Hz, Hr. kern_unfold.
  change {| cpus_allowed := cpus_allowed k;
            acpi_io_data := <[cpu policy := ?d]> (acpi_io_data k);
            pal_calls := pal_calls k |}
    with (with_slot (cpu policy) d k).
  destruct (Z.leb_spec (state_count perf) 1); [apply init_fail_run|].
  destruct (Z.eqb_spec (space_id (control_register perf))
              ACPI_ADR_SPACE_FIXED_HARDWARE); simpl; [|apply init_fail_run].
  destruct (Z.eqb_spec (space_id (status_register perf))
              ACPI_ADR_SPACE_FIXED_HARDWARE); simpl; [|apply init_fail_run].
  destruct Hbad as [?|[?|?]]; [lia|done|done].
Qed.

(** [acpi_cpufreq_cpu_init] returns 0 only at its last line. *)
Lemma init_success hw policy policy' k k1 :
  acpi_cpufreq_cpu_init hw policy k = Some ((0, policy'), k1) →
  ∃ perf,
    (acpi_processor_register_performance hw (cpu policy)).2 = perf ∧
    1 < state_count perf ∧
    cpu policy' = cpu policy ∧
    k1 = with_slot (cpu policy) (activated perf) k.
Proof.
  unfold acpi_cpufreq_cpu_init, init_fail.
  destruct (kzalloc hw); simpl; [|kern_unfold; intros [=]].
  destruct (acpi_processor_register_performance hw (cpu policy)) as [r perf].
  kern_unfold.
  destruct (nonzero (u32 r)) eqn:Er.
  { intros [= Hret _ _]. by apply int_u32_nonzero in Er. }
  destruct (Z.leb_spec (state_count perf) 1); [intros [=]|].
  destruct (_ || _); [intros [=]|].
  destruct (kcalloc hw); simpl; [|intros [=]].
  destruct (nonzero (u32 (cpufreq_table_validate_and_show _ _))) eqn:Ev.
  { intros [= Hret _ _]. by apply int_u32_nonzero in Ev. }
  intros [= _ <- <-]. exists perf. repeat split; [done|].
  unfold with_slot, activated, set_resume. simpl.
  by rewrite insert_insert_eq.
Qed.

(** ** Lemmas shared by the properties *)

Lemma pinned_test hw cpu :
  pinned hw cpu → (u32 (smp_processor_id hw) =? cpu) = true.
Proof. unfold pinned. lia. Qed.

Lemma valid_index_lookup d index :
  valid_index d index →
  ∃ px, states (acpi_data d) !! Z.to_nat index = Some px.
Proof.
  intros [[??] ?]. apply lookup_lt_is_Some. unfold state_count in *. lia.
Qed.

Lemma u32_int_index index : 0 ≤ index < 2 ^ 32 → u32 (int index) = index.
Proof. intros. by rewrite u32_int, u32_small. Qed.

(** The fast path of source lines 160-164. *)
Lemma target_fast_path hw policy index k d :
  acpi_io_data k !! cpu policy = Some d →
  u32 (int index) = state (acpi_data d) →
  resume d = 0 →
  pinned hw (cpu policy) →
  acpi_cpufreq_target hw policy index k = Some (0, k).
Proof.
  intros Hd Heq Hr Hpin.
  rewrite (target_run _ _ _ _ _ Hd), pinned_test, Heq, Hr by done.
  by rewrite Z.eqb_refl.
Qed.

(** With a NULL slot only the migration race returns. *)
Lemma target_run_null hw policy index k :
  acpi_io_data k !! cpu policy = None →
  acpi_cpufreq_target hw policy index k =
    if negb (u32 (smp_processor_id hw) =? cpu policy) then Some (- EAGAIN, k)
    else None.
Proof.
  intros Hd.
  unfold acpi_cpufreq_target, processor_set_freq. kern_unfold. rewrite Hd.
  destruct (u32 (smp_processor_id hw) =? cpu policy); simpl; [done|].
  by rewrite kernel_eta.
Qed.

Lemma target_returns hw policy index k d :
  acpi_io_data k !! cpu policy = Some d →
  valid_index d index →
  is_Some (acpi_cpufreq_target hw policy index k).
Proof.
  intros Hd Hv.
  destruct (valid_index_int _ _ Hv) as [Hi Hu].
  destruct (valid_index_lookup _ _ Hv) as [px Hpx].
  destruct Hv as [[??] ?].
  rewrite (target_run _ _ _ _ _ Hd), Hi, Hu, subscript_lookup, Hpx by lia.
  simpl. repeat case_match; done.
Qed.

Lemma get_returns hw cpu k d :
  acpi_io_data k !! cpu = Some d →
  states (acpi_data d) ≠ [] →
  is_Some (acpi_cpufreq_get hw cpu k).
Proof.
  intros Hd Hne. rewrite get_run, Hd. simpl. rewrite extract_clock_find.
  destruct (last (states (acpi_data d))) as [px|] eqn:Hl.
  2:{ by apply last_None in Hl. }
  simpl. repeat case_match; done.
Qed.

(** The only write of [resume] in [processor_set_freq] is source line
    159. *)
Lemma target_resume hw policy index k ret k' d :
  acpi_io_data k !! cpu policy = Some d →
  0 ≤ index < 2 ^ 32 →
  acpi_cpufreq_target hw policy index k = Some (ret, k') →
  ∃ d',
    acpi_io_data k' !! cpu policy = Some d' ∧
    (resume d' = resume d
     ∨ index = state (acpi_data d) ∧ resume d ≠ 0 ∧ resume d' = 0).
Proof.
  intros Hd Hi Hrun.
  rewrite (target_run _ _ _ _ _ Hd), u32_int_index in Hrun by done.
  destruct (u32 (smp_processor_id hw) =? cpu policy); simpl in Hrun.
  2:{ simplify_eq. eauto. }
  destruct (Z.eqb_spec index (state (acpi_data d))) as [Heq|Hne];
    simpl in Hrun.
  - destruct (nonzero (resume d)) eqn:Er; simpl in Hrun.
    + apply nonzero_true in Er.
      destruct (subscript _ _) as [px|]; simpl in Hrun; [|done].
      destruct (nonzero (ia64_pal_set_pstate hw _)); simplify_eq;
        eexists; (split; [apply lookup_insert_eq|]); by right.
    + simplify_eq. eauto.
  - destruct (subscript _ _) as [px|]; simpl in Hrun; [|done].
    destruct (nonzero (ia64_pal_set_pstate hw _)); simplify_eq;
      eexists; (split; [apply lookup_insert_eq|]); by left.
Qed.

Lemma get_keeps_slots hw cpu k ret k' :
  acpi_cpufreq_get hw cpu k = Some (ret, k') →
  acpi_io_data k' = acpi_io_data k.
Proof.
  intros Hrun. rewrite get_run in Hrun.
  destruct (acpi_io_data k !! cpu) as [d|]; simpl in Hrun;
    [destruct (extract_clock d _ cpu); simpl in Hrun|];
    repeat case_match; by simplify_eq.
Qed.

(** ** The properties of the specification *)

(** C1.  For a processor with a registered table and a valid target index
    that differs from the current one: when the affinity pin succeeds and
    the commit of the target state's control value succeeds (PAL accepts
    the value [processor_set_freq] hands to [processor_set_pstate], the
    control word converted to [u32]), [acpi_cpufreq_target] returns 0 and
    the current index is the target index; nothing else of the object
    changes. *)
Theorem target_success_sets_state hw policy index k d px :
  acpi_io_data k !! cpu policy = Some d →
  valid_index d index →
  index ≠ state (acpi_data d) →
  pinned hw (cpu policy) →
  states (acpi_data d) !! Z.to_nat index = Some px →
  ia64_pal_set_pstate hw (u32 (control px)) = 0 →
  ∃ k' d',
    acpi_cpufreq_target hw policy index k = Some (0, k') ∧
    acpi_io_data k' !! cpu policy = Some d' ∧
    state (acpi_data d') = index ∧
    d' = set_state index d.
Proof.
  intros Hd Hv Hne Hpin Hpx Hok.
  destruct (valid_index_int _ _ Hv) as [Hi Hu]. destruct Hv as [[??] ?].
  rewrite (target_run _ _ _ _ _ Hd), pinned_test by done. simpl.
  rewrite Hi, Hu, subscript_lookup, Hpx by lia. simpl. rewrite Hok. simpl.
  destruct (Z.eqb_spec index (state (acpi_data d))); [done|]. simpl.
  eexists _, _. split; [done|]. simpl.
  by rewrite lookup_insert_eq.
Qed.

(** The scenario of the specification: transition of processor 0 from
    state 0 to state 2. *)
Lemma target_success_sets_state_witness :
  ∃ k' d',
    acpi_cpufreq_target Scenario.hw_ok Scenario.policy0 2
      (Scenario.k_managed 0) = Some (0, k') ∧
    acpi_io_data k' !! 0 = Some d' ∧
    state (acpi_data d') = 2 ∧
    d' = set_state 2 {| acpi_data := Scenario.table4; resume := 0 |}.
Proof.
  apply (target_success_sets_state Scenario.hw_ok Scenario.policy0 2
           (Scenario.k_managed 0)
           {| acpi_data := Scenario.table4; resume := 0 |}
           (Scenario.point 2200 0x3 0x30)).
  - reflexivity.
  - unfold valid_index. vm_compute. intuition congruence.
  - vm_compute. discriminate.
  - reflexivity.
  - reflexivity.
  - reflexivity.
Defined.

(** C2.  For a registered processor and a valid target index the call
    returns, and if it performed a commit ([pal_calls] grew by one
    [PAL_SET_PSTATE]) that PAL failed, then it reports [-ENODEV], the
    current index is what it was, and a resume flag that was clear is
    still clear. *)
Theorem target_commit_failure_rolls_back hw policy index k d :
  acpi_io_data k !! cpu policy = Some d →
  valid_index d index →
  ∃ ret k' d',
    acpi_cpufreq_target hw policy index k = Some (ret, k') ∧
    acpi_io_data k' !! cpu policy = Some d' ∧
    ∀ value,
      pal_calls k' = pal_calls k ++ [PAL_SET_PSTATE value] →
      ia64_pal_set_pstate hw value ≠ 0 →
      ret = - ENODEV ∧ ret ≠ 0 ∧
      state (acpi_data d') = state (acpi_data d) ∧
      (resume d = 0 → resume d' = 0).
Proof.
  intros Hd Hv.
  destruct (valid_index_int _ _ Hv) as [Hi Hu].
  destruct (valid_index_lookup _ _ Hv) as [px Hpx]. destruct Hv as [[??] ?].
  rewrite (target_run _ _ _ _ _ Hd), Hi, Hu, subscript_lookup, Hpx by lia.
  assert (Hsame : ∀ c, pal_calls k ≠ pal_calls k ++ [c]).
  { intros c Hc. apply (f_equal length) in Hc.
    rewrite length_app in Hc. simpl in Hc. lia. }
  destruct (u32 (smp_processor_id hw) =? cpu policy); simpl.
  2:{ eexists _, _, _. split; [done|]. split; [done|].
      intros v Hv. by apply Hsame in Hv. }
  destruct (Z.eqb_spec index (state (acpi_data d))) as [Heq|Hne]; simpl.
  - destruct (nonzero (resume d)) eqn:Er; simpl.
    + destruct (nonzero (ia64_pal_set_pstate hw _)) eqn:Es;
        eexists _, _, _; (split; [done|]); simpl;
        rewrite lookup_insert_eq; (split; [done|]);
        intros v [_ [= <-]]%app_inj_tail Hf.
      * done.
      * by apply nonzero_false in Es.
    + eexists _, _, _. split; [done|]. split; [done|].
      intros v Hv. by apply Hsame in Hv.
  - destruct (nonzero (ia64_pal_set_pstate hw _)) eqn:Es;
      eexists _, _, _; (split; [done|]); simpl;
      rewrite lookup_insert_eq; (split; [done|]);
      intros v [_ [= <-]]%app_inj_tail Hf.
    + done.
    + by apply nonzero_false in Es.
Qed.

(** PAL rejects the commit of a transition from state 0 to state 2. *)
Lemma target_commit_failure_rolls_back_witness :
  (∃ ret k' d',
     acpi_cpufreq_target Scenario.hw_commit_fails Scenario.policy0 2
       (Scenario.k_managed 0) = Some (ret, k') ∧
     acpi_io_data k' !! 0 = Some d' ∧
     ∀ value,
       pal_calls k' = [] ++ [PAL_SET_PSTATE value] →
       ia64_pal_set_pstate Scenario.hw_commit_fails value ≠ 0 →
       ret = - ENODEV ∧ ret ≠ 0 ∧
       state (acpi_data d') = 0 ∧
       (0 = 0 → resume d' = 0))
  ∧ acpi_cpufreq_target Scenario.hw_commit_fails Scenario.policy0 2
      (Scenario.k_managed 0)
    = Some (- ENODEV, after_call (PAL_SET_PSTATE 3) (Scenario.k_managed 0)).
Proof.
  split.
  - apply (target_commit_failure_rolls_back Scenario.hw_commit_fails
             Scenario.policy0 2 (Scenario.k_managed 0)
             {| acpi_data := Scenario.table4; resume := 0 |}).
    + reflexivity.
    + unfold valid_index. vm_compute. intuition congruence.
  - vm_compute. reflexivity.
Defined.

(** C3, as amended.  When the affinity pin succeeds, the target index
    equals the current index and the resume flag is clear,
    [acpi_cpufreq_target] returns 0 and leaves the whole kernel state as
    it was: no PAL call, same current index, same flag.  In particular a
    second call with the same index after a first call that returned 0 is
    such a no-op, provided the pin succeeds again and the flag was clear
    before the first call or the first call already targeted the current
    index. *)
Theorem target_same_state_is_noop :
  (∀ hw policy index k d,
     acpi_io_data k !! cpu policy = Some d →
     0 ≤ index < 2 ^ 32 →
     index = state (acpi_data d) →
     resume d = 0 →
     pinned hw (cpu policy) →
     acpi_cpufreq_target hw policy index k = Some (0, k))
  ∧
  (∀ hw1 hw2 policy index k k1 d,
     acpi_io_data k !! cpu policy = Some d →
     0 ≤ index < 2 ^ 32 →
     resume d = 0 ∨ index = state (acpi_data d) →
     acpi_cpufreq_target hw1 policy index k = Some (0, k1) →
     pinned hw2 (cpu policy) →
     acpi_cpufreq_target hw2 policy index k1 = Some (0, k1)).
Proof.
  split.
  - intros hw policy index k d Hd Hi Heq Hr Hpin.
    apply (target_fast_path _ _ _ _ d); [done| |done|done].
    by rewrite u32_int_index.
  - intros hw1 hw2 policy index k k1 d Hd Hi Hflag Hfirst Hpin.
    rewrite (target_run _ _ _ _ _ Hd), u32_int_index in Hfirst by done.
    destruct (u32 (smp_processor_id hw1) =? cpu policy);
      simpl in Hfirst; [|by inversion Hfirst].
    destruct (Z.eqb_spec index (state (acpi_data d))) as [Heq|Hne];
      simpl in Hfirst.
    + destruct (nonzero (resume d)) eqn:Er; simpl in Hfirst.
      * destruct (subscript _ _) as [px|]; simpl in Hfirst; [|done].
        destruct (nonzero (ia64_pal_set_pstate hw1 _));
          inversion Hfirst; subst k1.
        eapply target_fast_path; [apply lookup_insert_eq| |done|done].
        simpl. by rewrite u32_int_index.
      * inversion Hfirst; subst k1.
        apply nonzero_false in Er.
        apply (target_fast_path _ _ _ _ d); [done| |done|done].
        by rewrite u32_int_index.
    + destruct Hflag as [Hr|?]; [|done].
      destruct (subscript _ _) as [px|]; simpl in Hfirst; [|done].
      destruct (nonzero (ia64_pal_set_pstate hw1 _));
        inversion Hfirst; subst k1.
      eapply target_fast_path; [apply lookup_insert_eq| |done|done].
      simpl. by rewrite u32_int_index.
Qed.

(** Processor 0 is in state 0 with the flag clear and is asked for
    state 0. *)
Lemma target_same_state_is_noop_witness :
  acpi_cpufreq_target Scenario.hw_ok Scenario.policy0 0
    (Scenario.k_managed 0) = Some (0, Scenario.k_managed 0).
Proof.
  apply (proj1 target_same_state_is_noop Scenario.hw_ok Scenario.policy0 0
           (Scenario.k_managed 0)
           {| acpi_data := Scenario.table4; resume := 0 |}).
  - reflexivity.
  - lia.
  - reflexivity.
  - reflexivity.
  - reflexivity.
Defined.

(** C3 as stated fails twice.  With the target equal to the current index
    and the flag clear, a caller that finds itself on another processor
    gets [-EAGAIN], not success (source lines 151-154).  And with the flag
    set, a successful transition from state 0 to state 2 leaves the flag
    set, so the second call with index 2 commits once more. *)
Lemma target_same_state_counterexample :
  acpi_io_data (Scenario.k_managed 0) !! 0 =
    Some {| acpi_data := Scenario.table4; resume := 0 |}
  ∧ state Scenario.table4 = 0
  ∧ acpi_cpufreq_target Scenario.hw_race Scenario.policy0 0
      (Scenario.k_managed 0) = Some (- EAGAIN, Scenario.k_managed 0)
  ∧ - EAGAIN ≠ 0
  ∧ ∃ k1 k2,
      acpi_cpufreq_target Scenario.hw_ok Scenario.policy0 2
        (Scenario.k_managed 1) = Some (0, k1)
      ∧ acpi_cpufreq_target Scenario.hw_ok Scenario.policy0 2 k1 = Some (0, k2)
      ∧ pal_calls k2 = pal_calls k1 ++ [PAL_SET_PSTATE 3].
Proof.
  split; [reflexivity|]. split; [reflexivity|].
  split; [vm_compute; reflexivity|]. split; [discriminate|].
  eexists _, _. split; [vm_compute; reflexivity|].
  split; vm_compute; reflexivity.
Qed.

(** C4, as amended.  After [acpi_cpufreq_cpu_init] returned 0 the slot
    holds an object whose resume flag is 1; the first
    [acpi_cpufreq_target] whose index equals the current index then, if
    the affinity pin succeeds, issues exactly one commit, of that state's
    control value converted to [u32], and leaves the flag clear and the
    current index equal to the target, whatever PAL answers. *)
Theorem first_target_after_init_commits hw0 policy policy' k k1 :
  acpi_cpufreq_cpu_init hw0 policy k = Some ((0, policy'), k1) →
  ∃ d,
    acpi_io_data k1 !! cpu policy' = Some d ∧
    resume d = 1 ∧
    ∀ hw index px,
      pinned hw (cpu policy') →
      valid_index d index →
      index = state (acpi_data d) →
      states (acpi_data d) !! Z.to_nat index = Some px →
      ∃ ret k2 d2,
        acpi_cpufreq_target hw policy' index k1 = Some (ret, k2) ∧
        pal_calls k2 = pal_calls k1 ++ [PAL_SET_PSTATE (u32 (control px))] ∧
        acpi_io_data k2 !! cpu policy' = Some d2 ∧
        resume d2 = 0 ∧
        state (acpi_data d2) = index.
Proof.
  intros (perf & _ & _ & Hcpu & ->)%init_success.
  exists (activated perf). rewrite Hcpu. simpl.
  split; [apply lookup_insert_eq|]. split; [done|].
  intros hw index px Hpin Hv Heq Hpx.
  destruct (valid_index_int _ _ Hv) as [Hi Hu]. destruct Hv as [[??] ?].
  assert (Hd : acpi_io_data (with_slot (cpu policy) (activated perf) k)
                 !! cpu policy' = Some (activated perf)).
  { rewrite Hcpu. apply lookup_insert_eq. }
  rewrite (target_run _ _ _ _ _ Hd), Hcpu, pinned_test by done.
  rewrite Hi, Hu, subscript_lookup by lia. simpl in *.
  rewrite Hpx, <- Heq, Z.eqb_refl. simpl.
  destruct (nonzero (ia64_pal_set_pstate hw _));
    eexists _, _, _; (split; [done|]); simpl;
    by rewrite lookup_insert_eq.
Qed.

(** Activation of processor 0 with the four-point table. *)
Lemma first_target_after_init_commits_witness :
  ∃ d,
    acpi_io_data (with_slot 0 (activated Scenario.table4) Scenario.k_boot)
      !! 0 = Some d ∧
    resume d = 1 ∧
    ∀ hw index px,
      pinned hw 0 →
      valid_index d index →
      index = state (acpi_data d) →
      states (acpi_data d) !! Z.to_nat index = Some px →
      ∃ ret k2 d2,
        acpi_cpufreq_target hw
          {| cpu := 0; cpuinfo_transition_latency := 10000;
             freq_table := Some (table_init Scenario.four_points) |}
          index (with_slot 0 (activated Scenario.table4) Scenario.k_boot)
          = Some (ret, k2) ∧
        pal_calls k2 = [] ++ [PAL_SET_PSTATE (u32 (control px))] ∧
        acpi_io_data k2 !! 0 = Some d2 ∧
        resume d2 = 0 ∧
        state (acpi_data d2) = index.
Proof.
  apply (first_target_after_init_commits Scenario.hw_ok Scenario.policy0
           {| cpu := 0; cpuinfo_transition_latency := 10000;
              freq_table := Some (table_init Scenario.four_points) |}
           Scenario.k_boot
           (with_slot 0 (activated Scenario.table4) Scenario.k_boot)).
  vm_compute. reflexivity.
Defined.

(** C4 as stated fails.  After a successful activation a first call for
    the current index whose caller finds itself on another processor
    returns [-EAGAIN] with the kernel state as it was: no commit, flag
    still set.  And when the pin succeeds, what is committed is the low
    32 bits of the control value (source line 175): 5 for the control
    value 0x100000005. *)
Lemma first_target_after_init_counterexample :
  (∃ policy' k1,
     acpi_cpufreq_cpu_init Scenario.hw_ok Scenario.policy0 Scenario.k_boot
       = Some ((0, policy'), k1)
     ∧ acpi_io_data k1 !! 0 = Some (activated Scenario.table4)
     ∧ state Scenario.table4 = 0
     ∧ acpi_cpufreq_target Scenario.hw_race policy' 0 k1
       = Some (- EAGAIN, k1)
     ∧ pal_calls k1 = [])
  ∧
  (∃ policy' k1 k2,
     acpi_cpufreq_cpu_init Scenario.hw_wide Scenario.policy0 Scenario.k_boot
       = Some ((0, policy'), k1)
     ∧ control <$> Scenario.wide_points !! 0%nat = Some 0x100000005
     ∧ acpi_cpufreq_target Scenario.hw_wide policy' 0 k1 = Some (0, k2)
     ∧ pal_calls k2 = [PAL_SET_PSTATE 5]).
Proof.
  split.
  - eexists _, _. split; [vm_compute; reflexivity|].
    split; [vm_compute; reflexivity|]. split; [reflexivity|].
    split; vm_compute; reflexivity.
  - eexists _, _, _. split; [vm_compute; reflexivity|].
    split; [reflexivity|]. split; vm_compute; reflexivity.
Qed.

(** C5, as amended.  For a registered table and a status value read back
    (the pin and the read succeeded, [value] is what
    [processor_get_pstate] stored): if an entry has this status value,
    [acpi_cpufreq_get] returns the core frequency of the first such entry
    times 1000, reduced modulo 2^32 by the function's [unsigned int]
    result; if no entry has it, the same of the last entry.  The result is
    the exact product whenever that is below 2^32. *)
Theorem get_reports_table_frequency hw cpu k d value :
  acpi_io_data k !! cpu = Some d →
  pinned hw cpu →
  int (ia64_pal_get_pstate hw).1 = 0 →
  value = u32 (ia64_pal_get_pstate hw).2 →
  (∀ (i : nat) px,
     states (acpi_data d) !! i = Some px →
     status px = value →
     (∀ (j : nat) qx,
        (j < i)%nat → states (acpi_data d) !! j = Some qx →
        status qx ≠ value) →
     acpi_cpufreq_get hw cpu k =
       Some ((core_frequency px * 1000) mod 2 ^ 32,
             after_call PAL_GET_PSTATE k))
  ∧
  (∀ px,
     (∀ qx, qx ∈ states (acpi_data d) → status qx ≠ value) →
     last (states (acpi_data d)) = Some px →
     acpi_cpufreq_get hw cpu k =
       Some ((core_frequency px * 1000) mod 2 ^ 32,
             after_call PAL_GET_PSTATE k)).
Proof.
  intros Hd Hpin Hret ->.
  rewrite get_run, pinned_test, Hret, Hd by done. simpl.
  rewrite extract_clock_find.
  split.
  - intros i px Hpx Hst Hfirst.
    assert (Hfind : list_find
                      (λ px, u32 (ia64_pal_get_pstate hw).2 = status px)
                      (states (acpi_data d)) = Some (i, px)).
    { apply list_find_Some. split; [done|]. split; [done|].
      intros j qx Hqx Hlt Habs. by apply (Hfirst j qx). }
    rewrite Hfind. simpl. by rewrite reported_frequency.
  - intros px Hnone Hlast.
    assert (Hfind : list_find
                      (λ px, u32 (ia64_pal_get_pstate hw).2 = status px)
                      (states (acpi_data d)) = None).
    { apply list_find_None, Forall_forall. intros qx Hqx Habs.
      by apply (Hnone qx). }
    rewrite Hfind, Hlast. simpl. by rewrite reported_frequency.
Qed.

(** Status 0x20 read back on processor 0 with the four-point table. *)
Lemma get_reports_table_frequency_witness :
  (∀ (i : nat) px,
     Scenario.four_points !! i = Some px →
     status px = 0x20 →
     (∀ (j : nat) qx,
        (j < i)%nat → Scenario.four_points !! j = Some qx →
        status qx ≠ 0x20) →
     acpi_cpufreq_get Scenario.hw_ok 0 (Scenario.k_managed 0) =
       Some ((core_frequency px * 1000) mod 2 ^ 32,
             after_call PAL_GET_PSTATE (Scenario.k_managed 0)))
  ∧
  (∀ px,
     (∀ qx, qx ∈ Scenario.four_points → status qx ≠ 0x20) →
     last Scenario.four_points = Some px →
     acpi_cpufreq_get Scenario.hw_ok 0 (Scenario.k_managed 0) =
       Some ((core_frequency px * 1000) mod 2 ^ 32,
             after_call PAL_GET_PSTATE (Scenario.k_managed 0))).
Proof.
  apply (get_reports_table_frequency Scenario.hw_ok 0 (Scenario.k_managed 0)
           {| acpi_data := Scenario.table4; resume := 0 |} 0x20).
  - reflexivity.
  - reflexivity.
  - reflexivity.
  - reflexivity.
Defined.

(** C5 as stated fails: with the status values 0x10, 0x20, 0x30 and 0x20
    read back, the matching entry's frequency 4294968 gives 704, not
    4294968 * 1000; the product does not fit the [int] it is stored in
    (source line 128). *)
Lemma get_frequency_counterexample :
  acpi_io_data Scenario.k_fast !! 0 =
    Some {| acpi_data :=
              Scenario.perf Scenario.fixed_hardware Scenario.fixed_hardware
                Scenario.fast_points;
            resume := 0 |}
  ∧ ia64_pal_get_pstate Scenario.hw_ok = (0, 0x20)
  ∧ Scenario.fast_points !! 1%nat = Some (Scenario.point 4294968 0x2 0x20)
  ∧ acpi_cpufreq_get Scenario.hw_ok 0 Scenario.k_fast =
      Some (704, after_call PAL_GET_PSTATE Scenario.k_fast)
  ∧ 704 ≠ 4294968 * 1000.
Proof.
  split; [reflexivity|]. split; [reflexivity|]. split; [reflexivity|].
  split; [vm_compute; reflexivity | discriminate].
Qed.

(** C6.  If the affinity pin fails, or the status read fails
    ([processor_get_pstate] returns a non-zero [int]),
    [acpi_cpufreq_get] returns 0, for a managed processor or not, and the
    slots of [acpi_io_data], so every table, are what they were. *)
Theorem get_failure_reports_zero hw cpu k :
  ¬ pinned hw cpu ∨ int (ia64_pal_get_pstate hw).1 ≠ 0 →
  ∃ k',
    acpi_cpufreq_get hw cpu k = Some (0, k') ∧
    acpi_io_data k' = acpi_io_data k.
Proof.
  intros Hfail. rewrite get_run.
  destruct (Z.eqb_spec (u32 (smp_processor_id hw)) cpu) as [Hpin|]; simpl.
  2:{ by exists k. }
  destruct Hfail as [Hn|Hret]; [done|].
  unfold nonzero. destruct (Z.eqb_spec (int (ia64_pal_get_pstate hw).1) 0);
    [done|]. simpl.
  by eexists.
Qed.

(** PAL fails the status read on processor 0. *)
Lemma get_failure_reports_zero_witness :
  ∃ k',
    acpi_cpufreq_get Scenario.hw_read_fails 0 (Scenario.k_managed 0)
      = Some (0, k') ∧
    acpi_io_data k' = acpi_io_data (Scenario.k_managed 0).
Proof.
  apply (get_failure_reports_zero Scenario.hw_read_fails 0
           (Scenario.k_managed 0)).
  right. vm_compute. discriminate.
Defined.

(** C7.  When the platform registers fewer than two operating points for
    the processor, [acpi_cpufreq_cpu_init] fails with [-ENODEV] and the
    processor's slot of [acpi_io_data] is NULL after the call. *)
Theorem init_rejects_too_few_states hw policy k perf :
  kzalloc hw = true →
  acpi_processor_register_performance hw (cpu policy) = (0, perf) →
  state_count perf < 2 →
  ∃ policy' k',
    acpi_cpufreq_cpu_init hw policy k = Some ((- ENODEV, policy'), k') ∧
    - ENODEV ≠ 0 ∧
    acpi_io_data k' !! cpu policy = None.
Proof.
  intros Hz Hr Hn. eexists _, _.
  split; [apply (init_rejects _ _ _ perf); [done|done|left; lia]|].
  split; [done|]. apply lookup_delete_eq.
Qed.

(** A platform with a single operating point. *)
Lemma init_rejects_too_few_states_witness :
  ∃ policy' k',
    acpi_cpufreq_cpu_init Scenario.hw_one_state Scenario.policy0
      Scenario.k_boot = Some ((- ENODEV, policy'), k') ∧
    - ENODEV ≠ 0 ∧
    acpi_io_data k' !! 0 = None.
Proof.
  apply (init_rejects_too_few_states Scenario.hw_one_state Scenario.policy0
           Scenario.k_boot
           (Scenario.perf Scenario.fixed_hardware Scenario.fixed_hardware
              [Scenario.point 3000 0x1 0x10])).
  - reflexivity.
  - reflexivity.
  - vm_compute. reflexivity.
Defined.

(** C8.  When the control register or the status register is not in the
    fixed-hardware address space, [acpi_cpufreq_cpu_init] fails with
    [-ENODEV] and the processor's slot of [acpi_io_data] is NULL after
    the call. *)
Theorem init_rejects_other_address_space hw policy k perf :
  kzalloc hw = true →
  acpi_processor_register_performance hw (cpu policy) = (0, perf) →
  space_id (control_register perf) ≠ ACPI_ADR_SPACE_FIXED_HARDWARE
  ∨ space_id (status_register perf) ≠ ACPI_ADR_SPACE_FIXED_HARDWARE →
  ∃ policy' k',
    acpi_cpufreq_cpu_init hw policy k = Some ((- ENODEV, policy'), k') ∧
    - ENODEV ≠ 0 ∧
    acpi_io_data k' !! cpu policy = None.
Proof.
  intros Hz Hr Hn. eexists _, _.
  split; [apply (init_rejects _ _ _ perf); [done|done|by right]|].
  split; [done|]. apply lookup_delete_eq.
Qed.

(** A control register in system I/O space. *)
Lemma init_rejects_other_address_space_witness :
  ∃ policy' k',
    acpi_cpufreq_cpu_init Scenario.hw_system_io Scenario.policy0
      Scenario.k_boot = Some ((- ENODEV, policy'), k') ∧
    - ENODEV ≠ 0 ∧
    acpi_io_data k' !! 0 = None.
Proof.
  apply (init_rejects_other_address_space Scenario.hw_system_io
           Scenario.policy0 Scenario.k_boot
           (Scenario.perf Scenario.system_io Scenario.fixed_hardware
              Scenario.four_points)).
  - reflexivity.
  - reflexivity.
  - left. vm_compute. discriminate.
Defined.

(** C9.  Whenever [acpi_cpufreq_target] or [acpi_cpufreq_get] returns, on
    any path (success, failed commit or read, migration race), the
    caller's affinity mask is the one it had before the call; and both
    return for a managed processor (with a valid index, with a table that
    is not empty). *)
Theorem affinity_mask_restored :
  (∀ hw policy index k ret k',
     acpi_cpufreq_target hw policy index k = Some (ret, k') →
     cpus_allowed k' = cpus_allowed k)
  ∧
  (∀ hw cpu k ret k',
     acpi_cpufreq_get hw cpu k = Some (ret, k') →
     cpus_allowed k' = cpus_allowed k)
  ∧
  (∀ hw policy index k d,
     acpi_io_data k !! cpu policy = Some d →
     valid_index d index →
     is_Some (acpi_cpufreq_target hw policy index k))
  ∧
  (∀ hw cpu k d,
     acpi_io_data k !! cpu = Some d →
     states (acpi_data d) ≠ [] →
     is_Some (acpi_cpufreq_get hw cpu k)).
Proof.
  split; [|split; [|split; [apply target_returns | apply get_returns]]].
  - intros hw policy index k ret k' Hrun.
    destruct (acpi_io_data k !! cpu policy) as [d|] eqn:Hd.
    + rewrite (target_run _ _ _ _ _ Hd) in Hrun.
      destruct (subscript (states (acpi_data d)) (int index));
        simpl in Hrun; repeat case_match; by simplify_eq.
    + rewrite (target_run_null _ _ _ _ Hd) in Hrun.
      repeat case_match; by simplify_eq.
  - intros hw cpu k ret k' Hrun. rewrite get_run in Hrun.
    destruct (acpi_io_data k !! cpu) as [d|]; simpl in Hrun;
      [destruct (extract_clock d _ cpu); simpl in Hrun|];
      repeat case_match; by simplify_eq.
Qed.

(** A failed commit on processor 0, and a query that loses the race. *)
Lemma affinity_mask_restored_witness :
  cpus_allowed
    (with_slot 0 {| acpi_data := Scenario.table4; resume := 0 |}
       (after_call (PAL_SET_PSTATE 1) (Scenario.k_managed 1)))
    = cpus_allowed (Scenario.k_managed 1)
  ∧ is_Some (acpi_cpufreq_get Scenario.hw_race 0 (Scenario.k_managed 1)).
Proof.
  split.
  - apply (proj1 affinity_mask_restored Scenario.hw_commit_fails
             Scenario.policy0 0 (Scenario.k_managed 1) (- ENODEV)
             (with_slot 0 {| acpi_data := Scenario.table4; resume := 0 |}
                (after_call (PAL_SET_PSTATE 1) (Scenario.k_managed 1)))).
    vm_compute. reflexivity.
  - apply (proj2 (proj2 (proj2 affinity_mask_restored)) Scenario.hw_race 0
             (Scenario.k_managed 1)
             {| acpi_data := Scenario.table4; resume := 1 |}).
    + reflexivity.
    + discriminate.
Defined.

(** C10.  A call of [acpi_cpufreq_target] that returns either keeps the
    resume flag or clears it, and it clears it only when the target index
    equals the current index and the flag was set; [acpi_cpufreq_get]
    never touches a slot.  A call for a different index keeps the flag, so
    after an activation and one successful transition to a different index
    the flag is still 1 (and the current index is the target). *)
Theorem resume_flag_cleared_only_at_same_state :
  (∀ hw policy index k ret k' d,
     acpi_io_data k !! cpu policy = Some d →
     0 ≤ index < 2 ^ 32 →
     acpi_cpufreq_target hw policy index k = Some (ret, k') →
     ∃ d',
       acpi_io_data k' !! cpu policy = Some d' ∧
       (resume d' = resume d
        ∨ index = state (acpi_data d) ∧ resume d ≠ 0 ∧ resume d' = 0))
  ∧
  (∀ hw cpu k ret k',
     acpi_cpufreq_get hw cpu k = Some (ret, k') →
     acpi_io_data k' = acpi_io_data k)
  ∧
  (∀ hw policy index k ret k' d,
     acpi_io_data k !! cpu policy = Some d →
     0 ≤ index < 2 ^ 32 →
     index ≠ state (acpi_data d) →
     acpi_cpufreq_target hw policy index k = Some (ret, k') →
     ∃ d', acpi_io_data k' !! cpu policy = Some d' ∧ resume d' = resume d)
  ∧
  (∀ hw0 hw policy policy' index k k1 k2 d,
     acpi_cpufreq_cpu_init hw0 policy k = Some ((0, policy'), k1) →
     acpi_io_data k1 !! cpu policy' = Some d →
     0 ≤ index < 2 ^ 32 →
     index ≠ state (acpi_data d) →
     acpi_cpufreq_target hw policy' index k1 = Some (0, k2) →
     ∃ d2,
       acpi_io_data k2 !! cpu policy' = Some d2 ∧
       resume d2 = 1 ∧
       state (acpi_data d2) = index).
Proof.
  split; [exact target_resume|]. split; [exact get_keeps_slots|]. split.
  - intros hw policy index k ret k' d Hd Hi Hne Hrun.
    destruct (target_resume _ _ _ _ _ _ _ Hd Hi Hrun)
      as (d' & Hd' & [?|[??]]); [eauto|done].
  - intros hw0 hw policy policy' index k k1 k2 d Hinit Hd Hi Hne Hrun.
    apply init_success in Hinit as (perf & _ & _ & Hcpu & ->).
    rewrite Hcpu in Hd. simpl in Hd. rewrite lookup_insert_eq in Hd.
    simplify_eq.
    assert (Hd : acpi_io_data (with_slot (cpu policy) (activated perf) k)
                   !! cpu policy' = Some (activated perf)).
    { rewrite Hcpu. apply lookup_insert_eq. }
    rewrite (target_run _ _ _ _ _ Hd), u32_int_index in Hrun by done.
    simpl in Hne.
    destruct (u32 (smp_processor_id hw) =? cpu policy');
      simpl in Hrun; [|done].
    destruct (Z.eqb_spec index (state perf)); [done|]. simpl in Hrun.
    destruct (subscript _ _) as [px|]; simpl in Hrun; [|done].
    destruct (nonzero (ia64_pal_set_pstate hw _)); simplify_eq.
    eexists. split; [apply lookup_insert_eq|]. done.
Qed.

(** Activation of processor 0, then a transition from state 0 to 2. *)
Lemma resume_flag_cleared_only_at_same_state_witness :
  ∃ d2,
    acpi_io_data
      (with_slot 0 (set_state 2 (activated Scenario.table4))
         (after_call (PAL_SET_PSTATE 3)
            (with_slot 0 (activated Scenario.table4) Scenario.k_boot)))
      !! 0 = Some d2 ∧
    resume d2 = 1 ∧
    state (acpi_data d2) = 2.
Proof.
  apply (proj2 (proj2 (proj2 resume_flag_cleared_only_at_same_state))
           Scenario.hw_ok Scenario.hw_ok Scenario.policy0
           {| cpu := 0; cpuinfo_transition_latency := 10000;
              freq_table := Some (table_init Scenario.four_points) |}
           2 Scenario.k_boot
           (with_slot 0 (activated Scenario.table4) Scenario.k_boot)
           (with_slot 0 (set_state 2 (activated Scenario.table4))
              (after_call (PAL_SET_PSTATE 3)
                 (with_slot 0 (activated Scenario.table4) Scenario.k_boot)))
           (activated Scenario.table4)).
  - vm_compute. reflexivity.
  - reflexivity.
  - lia.
  - vm_compute. discriminate.
  - vm_compute. reflexivity.
Defined.

(** ** Activation and deactivation *)

(** X1.  [acpi_cpufreq_cpu_exit] always returns 0 and leaves the
    processor's slot NULL, also when no object was registered (after a
    failed activation); the other slots, the affinity mask and the
    firmware are not touched. *)
Theorem exit_clears_slot policy k :
  ∃ k',
    acpi_cpufreq_cpu_exit policy k = Some (0, k') ∧
    acpi_io_data k' !! cpu policy = None ∧
    (∀ c, c ≠ cpu policy → acpi_io_data k' !! c = acpi_io_data k !! c) ∧
    cpus_allowed k' = cpus_allowed k ∧
    pal_calls k' = pal_calls k.
Proof.
  unfold acpi_cpufreq_cpu_exit. kern_unfold.
  destruct (acpi_io_data k !! cpu policy) as [d|] eqn:Hd; simpl.
  - eexists. split; [done|]. simpl. split; [apply lookup_delete_eq|].
    split; [|done]. intros c Hc. by apply lookup_delete_ne.
  - exists k. done.
Qed.

(** X2.  When [acpi_cpufreq_cpu_init] returns 0, the platform supplied at
    least two operating points behind fixed-hardware registers; the slot
    holds them as supplied (same order, same current index) with the
    resume flag 1; and the policy carries the frequency table of the
    points, in order, terminated by [CPUFREQ_TABLE_END]. *)
Theorem init_success_registers hw policy policy' k k1 :
  acpi_cpufreq_cpu_init hw policy k = Some ((0, policy'), k1) →
  ∃ perf,
    (acpi_processor_register_performance hw (cpu policy)).2 = perf ∧
    2 ≤ state_count perf ∧
    space_id (control_register perf) = ACPI_ADR_SPACE_FIXED_HARDWARE ∧
    space_id (status_register perf) = ACPI_ADR_SPACE_FIXED_HARDWARE ∧
    acpi_io_data k1 !! cpu policy = Some {| acpi_data := perf; resume := 1 |} ∧
    freq_table policy' = Some (table_init (states perf)) ∧
    cpuinfo_transition_latency policy'
      = detect_transition_latency (states perf).
Proof.
  unfold acpi_cpufreq_cpu_init, init_fail.
  destruct (kzalloc hw); simpl; [|kern_unfold; intros [=]].
  destruct (acpi_processor_register_performance hw (cpu policy)) as [r perf].
  kern_unfold.
  destruct (nonzero (u32 r)) eqn:Er.
  { intros [= Hret _ _]. by apply int_u32_nonzero in Er. }
  destruct (Z.leb_spec (state_count perf) 1); [intros [=]|].
  destruct (Z.eqb_spec (space_id (control_register perf))
              ACPI_ADR_SPACE_FIXED_HARDWARE); simpl; [|intros [=]].
  destruct (Z.eqb_spec (space_id (status_register perf))
              ACPI_ADR_SPACE_FIXED_HARDWARE); simpl; [|intros [=]].
  destruct (kcalloc hw); simpl; [|intros [=]].
  destruct (nonzero (u32 (cpufreq_table_validate_and_show _ _))) eqn:Ev.
  { intros [= Hret _ _]. by apply int_u32_nonzero in Ev. }
  intros [= _ <- <-]. exists perf. simpl.
  rewrite lookup_insert_eq. repeat split; [lia|done..].
Qed.

(** Activation of processor 0 with the four-point table. *)
Lemma init_success_registers_witness :
  ∃ perf,
    (acpi_processor_register_performance Scenario.hw_ok 0).2 = perf ∧
    2 ≤ state_count perf ∧
    space_id (control_register perf) = ACPI_ADR_SPACE_FIXED_HARDWARE ∧
    space_id (status_register perf) = ACPI_ADR_SPACE_FIXED_HARDWARE ∧
    acpi_io_data (with_slot 0 (activated Scenario.table4) Scenario.k_boot)
      !! 0 = Some {| acpi_data := perf; resume := 1 |} ∧
    Some (table_init Scenario.four_points) = Some (table_init (states perf)) ∧
    10000 = detect_transition_latency (states perf).
Proof.
  apply (init_success_registers Scenario.hw_ok Scenario.policy0
           {| cpu := 0; cpuinfo_transition_latency := 10000;
              freq_table := Some (table_init Scenario.four_points) |}
           Scenario.k_boot
           (with_slot 0 (activated Scenario.table4) Scenario.k_boot)).
  vm_compute. reflexivity.
Defined.

(** ** Further properties of the driver *)

Lemma without_slot_absent cpu k :
  acpi_io_data k !! cpu = None → without_slot cpu k = k.
Proof.
  intros H. unfold without_slot. rewrite delete_id by done.
  apply kernel_eta.
Qed.

(** The three ways [acpi_cpufreq_cpu_init] ends: no memory for the
    object, a failure after the slot was set, success. *)
Lemma init_cases hw policy k :
  (kzalloc hw = false ∧
   acpi_cpufreq_cpu_init hw policy k = Some ((- ENOMEM, policy), k))
  ∨ (kzalloc hw = true ∧
     ∃ ret policy',
       ret ≠ 0 ∧ cpu policy' = cpu policy ∧
       acpi_cpufreq_cpu_init hw policy k
         = Some ((ret, policy'), without_slot (cpu policy) k))
  ∨ (kzalloc hw = true ∧
     ∃ perf,
       (acpi_processor_register_performance hw (cpu policy)).2 = perf ∧
       1 < state_count perf ∧
       acpi_cpufreq_cpu_init hw policy k
         = Some ((0, activated_policy policy perf),
                 with_slot (cpu policy) (activated perf) k)).
Proof.
  unfold acpi_cpufreq_cpu_init.
  destruct (kzalloc hw); simpl; [right|by left].
  destruct (acpi_processor_register_performance hw (cpu policy)) as [r perf].
  kern_unfold.
  change {| cpus_allowed := cpus_allowed k;
            acpi_io_data := <[cpu policy := ?d]> (acpi_io_data k);
            pal_calls := pal_calls k |}
    with (with_slot (cpu policy) d k).
  destruct (nonzero (u32 r)) eqn:Er.
  { left. split; [done|]. rewrite init_fail_run.
    exists (int (u32 r)), policy.
    split; [exact (int_u32_nonzero _ Er)|]. done. }
  destruct (Z.leb_spec (state_count perf) 1).
  { left. split; [done|]. rewrite init_fail_run.
    by exists (- ENODEV), policy. }
  destruct (_ || _).
  { left. split; [done|]. rewrite init_fail_run.
    by exists (- ENODEV), policy. }
  destruct (kcalloc hw); simpl.
  2:{ left. split; [done|]. rewrite init_fail_run.
      by exists (- ENOMEM), policy. }
  destruct (nonzero (u32 (cpufreq_table_validate_and_show _ _))) eqn:Ev.
  { left. split; [done|]. unfold init_fail, with_slot. kern_unfold.
    rewrite delete_insert_eq.
    eexists (int (u32 _)), _.
    split; [exact (int_u32_nonzero _ Ev)|]. split; [|reflexivity]. done. }
  right. split; [done|]. exists perf. split; [done|]. split; [done|].
  apply nonzero_false in Ev. rewrite Ev.
  unfold with_slot, activated, set_resume, activated_policy. simpl.
  by rewrite insert_insert_eq.
Qed.

Lemma exit_run policy k :
  acpi_cpufreq_cpu_exit policy k =
    Some (0, match acpi_io_data k !! cpu policy with
             | Some _ => without_slot (cpu policy) k
             | None => k
             end).
Proof.
  unfold acpi_cpufreq_cpu_exit. kern_unfold.
  by destruct (acpi_io_data k !! cpu policy).
Qed.

Lemma init_success_policy hw policy policy' k k1 :
  acpi_cpufreq_cpu_init hw policy k = Some ((0, policy'), k1) →
  ∃ perf,
    1 < state_count perf ∧
    policy' = activated_policy policy perf ∧
    k1 = with_slot (cpu policy) (activated perf) k.
Proof.
  intros Hinit.
  destruct (init_cases hw policy k)
    as [[_ H]|[(_ & ret & p & Hret & _ & H)|(_ & perf & _ & Hn & H)]];
    rewrite H in Hinit; simplify_eq.
  by exists perf.
Qed.

(** [extract_clock] on a table that is not empty returns the frequency of
    one of its entries. *)
Lemma extract_clock_entry d value cpu :
  states (acpi_data d) ≠ [] →
  ∃ px,
    px ∈ states (acpi_data d) ∧
    extract_clock d value cpu = Some (u32 (core_frequency px)).
Proof.
  intros Hne. rewrite extract_clock_find.
  destruct (list_find _ _) as [[i px]|] eqn:Hfind.
  - apply list_find_Some in Hfind as (Hpx & _ & _).
    exists px. split; [|done]. apply list_elem_of_lookup. eauto.
  - destruct (last (states (acpi_data d))) as [px|] eqn:Hlast.
    + exists px. split; [by apply last_Some_elem_of|done].
    + by apply last_None in Hlast.
Qed.

(** The frequencies of [table_init], position by position. *)
Lemma table_init_lookup l (i : nat) px :
  l !! i = Some px →
  table_init l !! i = Some ((core_frequency px * 1000) mod 2 ^ 32).
Proof.
  intros Hpx. unfold table_init.
  rewrite lookup_app_l.
  2:{ rewrite length_map. by eapply lookup_lt_Some. }
  rewrite list_lookup_fmap, Hpx. simpl. by rewrite u32_u64.
Qed.

(** The latency loop from an accumulator, when no product wraps. *)
Lemma latency_loop_max l acc :
  (∀ px, px ∈ l → 0 ≤ transition_latency px * 1000 < 2 ^ 32) →
  let r := foldl (λ latency px,
                    if u64 (transition_latency px * 1000) >? latency
                    then u32 (u64 (transition_latency px * 1000))
                    else latency) acc l in
  acc ≤ r ∧
  (∀ px, px ∈ l → transition_latency px * 1000 ≤ r) ∧
  (r = acc ∨ ∃ px, px ∈ l ∧ r = transition_latency px * 1000).
Proof.
  revert acc. induction l as [|x l IH]; intros acc Hfit; simpl.
  - split; [done|]. split; [|by left]. intros px Hpx. by inversion Hpx.
  - assert (Hx : 0 ≤ transition_latency x * 1000 < 2 ^ 32).
    { apply Hfit. by left. }
    assert (Hl : ∀ px, px ∈ l → 0 ≤ transition_latency px * 1000 < 2 ^ 32).
    { intros px Hpx. apply Hfit. by right. }
    assert (Hu : u64 (transition_latency x * 1000)
                 = transition_latency x * 1000).
    { unfold u64. apply Z.mod_small. lia. }
    rewrite Hu, (u32_small _ Hx).
    destruct (Z.gtb_spec (transition_latency x * 1000) acc) as [Hgt|Hle].
    + destruct (IH (transition_latency x * 1000) Hl) as (Hacc & Hall & Hor).
      split; [lia|]. split.
      * intros px [->|Hpx]%elem_of_cons; [done|by apply Hall].
      * right. destruct Hor as [->|(px & Hpx & ->)].
        -- exists x. split; [by left|done].
        -- exists px. split; [by right|done].
    + destruct (IH acc Hl) as (Hacc & Hall & Hor).
      split; [done|]. split.
      * intros px [->|Hpx]%elem_of_cons; [lia|by apply Hall].
      * destruct Hor as [->|(px & Hpx & ->)]; [by left|].
        right. exists px. split; [by right|done].
Qed.

(** Splits a returning call of [acpi_cpufreq_target] on a managed
    processor into its paths. *)
Ltac target_split Hrun :=
  destruct (u32 (smp_processor_id _) =? cpu _); simpl in Hrun;
  [ destruct (_ =? state _) eqn:Hsame; simpl in Hrun;
    [ destruct (nonzero (resume _)) eqn:Hflag; simpl in Hrun | ];
    try (destruct (subscript _ _) as [px|] eqn:Hsub; simpl in Hrun;
         [ destruct (nonzero (ia64_pal_set_pstate _ _)) eqn:Hpal | ])
  | ];
  simplify_eq.

Ltac target_paths Hd Hrun :=
  rewrite (target_run _ _ _ _ _ Hd) in Hrun; target_split Hrun.

(** X3.  When the caller does not run on the requested processor after
    the pin, [acpi_cpufreq_target] returns [-EAGAIN] and
    [acpi_cpufreq_get] returns 0 with the kernel state exactly as it was:
    no firmware call, no write to the slot, mask restored.  This holds for
    every index and also for a NULL slot. *)
Theorem migration_race_touches_nothing hw policy index k :
  ¬ pinned hw (cpu policy) →
  acpi_cpufreq_target hw policy index k = Some (- EAGAIN, k) ∧
  acpi_cpufreq_get hw (cpu policy) k = Some (0, k).
Proof.
  intros Hrace.
  assert (Ht : (u32 (smp_processor_id hw) =? cpu policy) = false).
  { unfold pinned in Hrace. lia. }
  split.
  - destruct (acpi_io_data k !! cpu policy) as [d|] eqn:Hd.
    + by rewrite (target_run _ _ _ _ _ Hd), Ht.
    + by rewrite (target_run_null _ _ _ _ Hd), Ht.
  - by rewrite get_run, Ht.
Qed.

(** A race on a processor that is not managed, with an index outside
    any table. *)
Lemma migration_race_touches_nothing_witness :
  acpi_cpufreq_target Scenario.hw_race Scenario.policy0 7 Scenario.k_boot
    = Some (- EAGAIN, Scenario.k_boot) ∧
  acpi_cpufreq_get Scenario.hw_race 0 Scenario.k_boot
    = Some (0, Scenario.k_boot).
Proof.
  apply (migration_race_touches_nothing Scenario.hw_race Scenario.policy0 7
           Scenario.k_boot).
  vm_compute. discriminate.
Defined.

(** X4.  Neither callback checks its slot for NULL.  On a processor whose
    slot is NULL, once the pin succeeds, [acpi_cpufreq_target]
    dereferences NULL, and so does [acpi_cpufreq_get] when the status
    read succeeds; when the read fails it returns 0 before touching the
    object. *)
Theorem unmanaged_processor_is_dereferenced hw policy index k :
  acpi_io_data k !! cpu policy = None →
  pinned hw (cpu policy) →
  acpi_cpufreq_target hw policy index k = None ∧
  (int (ia64_pal_get_pstate hw).1 = 0 →
   acpi_cpufreq_get hw (cpu policy) k = None) ∧
  (int (ia64_pal_get_pstate hw).1 ≠ 0 →
   acpi_cpufreq_get hw (cpu policy) k
     = Some (0, after_call PAL_GET_PSTATE k)).
Proof.
  intros Hd Hpin. apply pinned_test in Hpin.
  split; [by rewrite (target_run_null _ _ _ _ Hd), Hpin|].
  rewrite get_run, Hpin, Hd. simpl. unfold nonzero.
  split; intros Hret.
  - by rewrite Hret.
  - by destruct (Z.eqb_spec (int (ia64_pal_get_pstate hw).1) 0).
Qed.

(** Processor 0 before any activation. *)
Lemma unmanaged_processor_is_dereferenced_witness :
  acpi_cpufreq_target Scenario.hw_ok Scenario.policy0 0 Scenario.k_boot
    = None ∧
  (int (ia64_pal_get_pstate Scenario.hw_ok).1 = 0 →
   acpi_cpufreq_get Scenario.hw_ok 0 Scenario.k_boot = None) ∧
  (int (ia64_pal_get_pstate Scenario.hw_ok).1 ≠ 0 →
   acpi_cpufreq_get Scenario.hw_ok 0 Scenario.k_boot
     = Some (0, after_call PAL_GET_PSTATE Scenario.k_boot)).
Proof.
  apply (unmanaged_processor_is_dereferenced Scenario.hw_ok Scenario.policy0
           0 Scenario.k_boot).
  - reflexivity.
  - reflexivity.
Defined.

(** X5.  [processor_set_freq] does not check the index against the table.
    With the pin held, an index outside the table (as the [int] the
    function receives) reads [states] out of bounds, unless the call
    takes the fast path (index equal to the current one, flag clear),
    which reads no entry. *)
Theorem target_index_outside_table hw policy index k d :
  acpi_io_data k !! cpu policy = Some d →
  pinned hw (cpu policy) →
  0 ≤ index < 2 ^ 32 →
  ¬ (0 ≤ int index < state_count (acpi_data d)) →
  index ≠ state (acpi_data d) ∨ resume d ≠ 0 →
  acpi_cpufreq_target hw policy index k = None.
Proof.
  intros Hd Hpin Hi Hout Hslow. apply pinned_test in Hpin.
  rewrite (target_run _ _ _ _ _ Hd), Hpin, u32_int_index by done. simpl.
  assert (Hsub : subscript (states (acpi_data d)) (int index) = None).
  { unfold subscript. destruct (Z.ltb_spec (int index) 0); [done|].
    apply lookup_ge_None. unfold state_count in Hout. lia. }
  rewrite Hsub. simpl.
  destruct (Z.eqb_spec index (state (acpi_data d))); simpl; [|done].
  destruct Hslow as [?|Hr]; [done|].
  unfold nonzero. by destruct (Z.eqb_spec (resume d) 0).
Qed.

(** Index 4 with the four-point table. *)
Lemma target_index_outside_table_witness :
  acpi_cpufreq_target Scenario.hw_ok Scenario.policy0 4
    (Scenario.k_managed 0) = None.
Proof.
  apply (target_index_outside_table Scenario.hw_ok Scenario.policy0 4
           (Scenario.k_managed 0)
           {| acpi_data := Scenario.table4; resume := 0 |}).
  - reflexivity.
  - reflexivity.
  - lia.
  - vm_compute. intros [_ H]. discriminate H.
  - left. vm_compute. discriminate.
Defined.

(** X6.  The result of a call of [acpi_cpufreq_target] that returns tells
    where the processor is believed to be: 0 means the current index is
    now the requested one (also on the fast path and on a resume
    re-write), [-EAGAIN] means nothing happened, [-ENODEV] means the
    current index is the one before the call.  There is no other
    result. *)
Theorem target_result_tells_state hw policy index k ret k' d :
  acpi_io_data k !! cpu policy = Some d →
  0 ≤ index < 2 ^ 32 →
  acpi_cpufreq_target hw policy index k = Some (ret, k') →
  ∃ d',
    acpi_io_data k' !! cpu policy = Some d' ∧
    (ret = 0 ∧ state (acpi_data d') = index
     ∨ ret = - EAGAIN ∧ k' = k
     ∨ ret = - ENODEV ∧ state (acpi_data d') = state (acpi_data d)).
Proof.
  intros Hd Hi Hrun.
  rewrite (target_run _ _ _ _ _ Hd), u32_int_index in Hrun by done.
  target_split Hrun; simpl;
    rewrite ?lookup_insert_eq; eexists; (split; [done|]); simpl.
  - by right; right.
  - left. split; [done|]. lia.
  - left. split; [done|]. lia.
  - by right; right.
  - by left.
  - by right; left.
Qed.

(** The transition of processor 0 from state 0 to state 2. *)
Lemma target_result_tells_state_witness :
  ∃ d',
    acpi_io_data Scenario.k_moved !! 0 = Some d' ∧
    (0 = 0 ∧ state (acpi_data d') = 2
     ∨ 0 = - EAGAIN ∧ Scenario.k_moved = Scenario.k_managed 1
     ∨ 0 = - ENODEV ∧ state (acpi_data d') = state Scenario.table4).
Proof.
  apply (target_result_tells_state Scenario.hw_ok Scenario.policy0 2
           (Scenario.k_managed 1) 0 Scenario.k_moved (Scenario.entry 1)).
  - reflexivity.
  - lia.
  - vm_compute. reflexivity.
Defined.

(** X7.  [acpi_cpufreq_target] never changes the table: after a call that
    returns, the object of the slot has the same operating points and the
    same control and status registers; a clear resume flag stays clear;
    and the slots of the other processors are what they were. *)
Theorem target_keeps_table hw policy index k ret k' d :
  acpi_io_data k !! cpu policy = Some d →
  acpi_cpufreq_target hw policy index k = Some (ret, k') →
  ∃ d',
    acpi_io_data k' !! cpu policy = Some d' ∧
    states (acpi_data d') = states (acpi_data d) ∧
    control_register (acpi_data d') = control_register (acpi_data d) ∧
    status_register (acpi_data d') = status_register (acpi_data d) ∧
    (resume d = 0 → resume d' = 0) ∧
    ∀ c, c ≠ cpu policy → acpi_io_data k' !! c = acpi_io_data k !! c.
Proof.
  intros Hd Hrun.
  target_paths Hd Hrun; simpl;
    rewrite ?lookup_insert_eq; eexists; (split; [done|]); simpl;
    repeat split; try done;
    intros c Hc; by rewrite lookup_insert_ne.
Qed.

(** The transition of processor 0 from state 0 to state 2. *)
Lemma target_keeps_table_witness :
  ∃ d',
    acpi_io_data Scenario.k_moved !! 0 = Some d' ∧
    states (acpi_data d') = Scenario.four_points ∧
    control_register (acpi_data d') = Scenario.fixed_hardware ∧
    status_register (acpi_data d') = Scenario.fixed_hardware ∧
    (1 = 0 → resume d' = 0) ∧
    ∀ c, c ≠ 0 →
         acpi_io_data Scenario.k_moved !! c
         = acpi_io_data (Scenario.k_managed 1) !! c.
Proof.
  apply (target_keeps_table Scenario.hw_ok Scenario.policy0 2
           (Scenario.k_managed 1) 0 Scenario.k_moved (Scenario.entry 1)).
  - reflexivity.
  - vm_compute. reflexivity.
Defined.

(** X8.  What [acpi_cpufreq_target] does to the firmware: a call that
    returns issued no PAL call at all, or exactly one [PAL_SET_PSTATE],
    never a status read.  The value written is the control value of the
    entry at the requested index cut to 32 bits, and the call returned 0
    exactly when PAL accepted it. *)
Theorem target_firmware_footprint hw policy index k ret k' :
  acpi_cpufreq_target hw policy index k = Some (ret, k') →
  pal_calls k' = pal_calls k
  ∨ ∃ d px,
      acpi_io_data k !! cpu policy = Some d ∧
      subscript (states (acpi_data d)) (int index) = Some px ∧
      pal_calls k' = pal_calls k ++ [PAL_SET_PSTATE (u32 (control px))] ∧
      0 ≤ u32 (control px) < 2 ^ 32 ∧
      (ret = 0 ↔ ia64_pal_set_pstate hw (u32 (control px)) = 0).
Proof.
  intros Hrun.
  destruct (acpi_io_data k !! cpu policy) as [d|] eqn:Hd.
  2:{ rewrite (target_run_null _ _ _ _ Hd) in Hrun.
      destruct (_ =? _); simpl in Hrun; simplify_eq. by left. }
  target_paths Hd Hrun; simpl; try (by left);
    right; eexists _, _; (split; [done|]); (split; [done|]);
    (split; [done|]); (split; [apply u32_range|]).
  all: first [ apply nonzero_true in Hpal | apply nonzero_false in Hpal ].
  all: split; done.
Qed.

(** The transition of processor 0 from state 0 to state 2. *)
Lemma target_firmware_footprint_witness :
  pal_calls Scenario.k_moved = pal_calls (Scenario.k_managed 1)
  ∨ ∃ d px,
      acpi_io_data (Scenario.k_managed 1) !! 0 = Some d ∧
      subscript (states (acpi_data d)) (int 2) = Some px ∧
      pal_calls Scenario.k_moved
        = pal_calls (Scenario.k_managed 1)
          ++ [PAL_SET_PSTATE (u32 (control px))] ∧
      0 ≤ u32 (control px) < 2 ^ 32 ∧
      (0 = 0 ↔ ia64_pal_set_pstate Scenario.hw_ok (u32 (control px)) = 0).
Proof.
  apply (target_firmware_footprint Scenario.hw_ok Scenario.policy0 2
           (Scenario.k_managed 1) 0 Scenario.k_moved).
  vm_compute. reflexivity.
Defined.

(** X9.  [acpi_cpufreq_get] only reads: a call that returns issued no PAL
    call or exactly one [PAL_GET_PSTATE], never a commit, and its result
    is an [unsigned int]. *)
Theorem get_only_reads hw cpu k ret k' :
  acpi_cpufreq_get hw cpu k = Some (ret, k') →
  (pal_calls k' = pal_calls k
   ∨ pal_calls k' = pal_calls k ++ [PAL_GET_PSTATE]) ∧
  0 ≤ ret < 2 ^ 32.
Proof.
  intros Hrun. rewrite get_run in Hrun.
  destruct (_ =? cpu); simpl in Hrun; [|simplify_eq; split; [by left|done]].
  destruct (nonzero _); simpl in Hrun; [simplify_eq; split; [by right|done]|].
  destruct (acpi_io_data k !! cpu) as [d|]; simpl in Hrun; [|done].
  destruct (extract_clock d _ cpu); simpl in Hrun; [|done].
  simplify_eq. split; [by right|apply u32_range].
Qed.

(** A query of processor 0 in state 0x20. *)
Lemma get_only_reads_witness :
  (pal_calls (after_call PAL_GET_PSTATE (Scenario.k_managed 0))
     = pal_calls (Scenario.k_managed 0)
   ∨ pal_calls (after_call PAL_GET_PSTATE (Scenario.k_managed 0))
     = pal_calls (Scenario.k_managed 0) ++ [PAL_GET_PSTATE]) ∧
  0 ≤ 2600000 < 2 ^ 32.
Proof.
  apply (get_only_reads Scenario.hw_ok 0 (Scenario.k_managed 0) 2600000
           (after_call PAL_GET_PSTATE (Scenario.k_managed 0))).
  vm_compute. reflexivity.
Defined.

(** X10.  The current index stays a valid index: if it is one before a
    call of [acpi_cpufreq_target] with a valid index, it is one after the
    call, whatever the platform answers. *)
Theorem target_keeps_state_valid hw policy index k ret k' d :
  acpi_io_data k !! cpu policy = Some d →
  valid_index d index →
  valid_index d (state (acpi_data d)) →
  acpi_cpufreq_target hw policy index k = Some (ret, k') →
  ∃ d',
    acpi_io_data k' !! cpu policy = Some d' ∧
    valid_index d' (state (acpi_data d')).
Proof.
  intros Hd Hv Hcur Hrun.
  destruct (valid_index_int _ _ Hv) as [Hi Hu].
  target_paths Hd Hrun; simpl;
    rewrite ?lookup_insert_eq; eexists; (split; [done|]);
    unfold valid_index, state_count in *; simpl; rewrite ?Hi, ?Hu; done.
Qed.

(** The transition of processor 0 from state 0 to state 2. *)
Lemma target_keeps_state_valid_witness :
  ∃ d',
    acpi_io_data Scenario.k_moved !! 0 = Some d' ∧
    valid_index d' (state (acpi_data d')).
Proof.
  apply (target_keeps_state_valid Scenario.hw_ok Scenario.policy0 2
           (Scenario.k_managed 1) 0 Scenario.k_moved (Scenario.entry 1)).
  - reflexivity.
  - unfold valid_index. vm_compute. intuition congruence.
  - unfold valid_index. vm_compute. intuition congruence.
  - vm_compute. reflexivity.
Defined.

(** X11.  [extract_clock] is undefined exactly on an empty table, where
    the fallback reads [states[-1]]; on any other table it returns, for
    every status value, the core frequency of one of the entries, cut to
    32 bits. *)
Theorem extract_clock_defined_on_nonempty_table d value cpu :
  (extract_clock d value cpu = None ↔ states (acpi_data d) = []) ∧
  (∀ clock,
     extract_clock d value cpu = Some clock →
     ∃ px, px ∈ states (acpi_data d) ∧ clock = u32 (core_frequency px)).
Proof.
  rewrite extract_clock_find.
  destruct (list_find _ _) as [[i px]|] eqn:Hfind.
  - apply list_find_Some in Hfind as (Hpx & _ & _).
    split.
    + split; [done|]. intros Hnil. by rewrite Hnil in Hpx.
    + intros clock [= <-]. exists px. split; [|done].
      apply list_elem_of_lookup. eauto.
  - destruct (last (states (acpi_data d))) as [px|] eqn:Hlast; simpl.
    + split.
      * split; [done|]. intros Hnil. by rewrite Hnil in Hlast.
      * intros clock [= <-]. exists px. split; [|done].
        by apply last_Some_elem_of.
    + split; [|done]. split; [|done]. intros _. by apply last_None.
Qed.

(** X12.  After a successful activation the frequency table of the policy
    has one entry per operating point and the terminator
    [CPUFREQ_TABLE_END], and every frequency [acpi_cpufreq_get] reports
    while the pin and the status read succeed is one of the entries
    before the terminator. *)
Theorem get_after_init_reports_table_entry hw0 hw policy policy' k k1 :
  acpi_cpufreq_cpu_init hw0 policy k = Some ((0, policy'), k1) →
  pinned hw (cpu policy') →
  int (ia64_pal_get_pstate hw).1 = 0 →
  ∃ d table freq (i : nat),
    acpi_io_data k1 !! cpu policy' = Some d ∧
    freq_table policy' = Some table ∧
    length table = S (length (states (acpi_data d))) ∧
    table !! length (states (acpi_data d)) = Some CPUFREQ_TABLE_END ∧
    acpi_cpufreq_get hw (cpu policy') k1
      = Some (freq, after_call PAL_GET_PSTATE k1) ∧
    (i < length (states (acpi_data d)))%nat ∧
    table !! i = Some freq.
Proof.
  intros (perf & Hn & -> & ->)%init_success_policy Hpin Hret.
  simpl in *.
  assert (Hne : states perf ≠ []).
  { intros Hnil. unfold state_count in Hn. rewrite Hnil in Hn. simpl in Hn.
    lia. }
  destruct (extract_clock_entry (activated perf)
              (u32 (ia64_pal_get_pstate hw).2) (cpu policy) Hne)
    as (px & [i Hi]%list_elem_of_lookup & Hclock).
  exists (activated perf), (table_init (states perf)),
    ((core_frequency px * 1000) mod 2 ^ 32), i.
  split; [apply lookup_insert_eq|]. split; [done|].
  split.
  { unfold table_init. rewrite length_app, length_map. simpl. lia. }
  split.
  { unfold table_init. rewrite lookup_app_r; rewrite length_map; [|done].
    by rewrite Nat.sub_diag. }
  split.
  { rewrite get_run, pinned_test, Hret by done. simpl.
    rewrite lookup_insert_eq. simpl. rewrite Hclock. simpl.
    by rewrite reported_frequency. }
  split; [by eapply lookup_lt_Some | by apply table_init_lookup].
Qed.

(** Activation of processor 0 with the four-point table, then a query. *)
Lemma get_after_init_reports_table_entry_witness :
  ∃ d table freq (i : nat),
    acpi_io_data (with_slot 0 (activated Scenario.table4) Scenario.k_boot)
      !! 0 = Some d ∧
    Some (table_init Scenario.four_points) = Some table ∧
    length table = S (length (states (acpi_data d))) ∧
    table !! length (states (acpi_data d)) = Some CPUFREQ_TABLE_END ∧
    acpi_cpufreq_get Scenario.hw_ok 0
      (with_slot 0 (activated Scenario.table4) Scenario.k_boot)
      = Some (freq,
              after_call PAL_GET_PSTATE
                (with_slot 0 (activated Scenario.table4) Scenario.k_boot)) ∧
    (i < length (states (acpi_data d)))%nat ∧
    table !! i = Some freq.
Proof.
  apply (get_after_init_reports_table_entry Scenario.hw_ok Scenario.hw_ok
           Scenario.policy0
           (activated_policy Scenario.policy0 Scenario.table4)
           Scenario.k_boot
           (with_slot 0 (activated Scenario.table4) Scenario.k_boot)).
  - vm_compute. reflexivity.
  - reflexivity.
  - reflexivity.
Defined.

(** X13.  [acpi_cpufreq_cpu_init] always returns, for the same processor,
    without a firmware call and without touching the affinity mask or the
    slots of other processors.  It returns 0 exactly when it leaves an
    object in the slot, and that object has the resume flag set.  When it
    fails the slot is NULL, except when the object itself could not be
    allocated: then the result is [-ENOMEM] and nothing was written. *)
Theorem init_registers_iff_success hw policy k :
  ∃ ret policy' k',
    acpi_cpufreq_cpu_init hw policy k = Some ((ret, policy'), k') ∧
    cpu policy' = cpu policy ∧
    cpus_allowed k' = cpus_allowed k ∧
    pal_calls k' = pal_calls k ∧
    (∀ c, c ≠ cpu policy → acpi_io_data k' !! c = acpi_io_data k !! c) ∧
    (ret = 0 → ∃ d, acpi_io_data k' !! cpu policy = Some d ∧ resume d = 1) ∧
    (ret ≠ 0 →
     kzalloc hw = false ∧ ret = - ENOMEM ∧ policy' = policy ∧ k' = k
     ∨ kzalloc hw = true ∧ acpi_io_data k' !! cpu policy = None).
Proof.
  destruct (init_cases hw policy k)
    as [[Hz H]|[(Hz & ret & p & Hret & Hcpu & H)|(Hz & perf & _ & Hn & H)]];
    rewrite H; eexists _, _, _; (split; [done|]); simpl.
  - repeat split; try done. intros _. by left.
  - split; [done|]. split; [done|]. split; [done|].
    split; [intros c Hc; by apply lookup_delete_ne|].
    split; [done|]. intros _. right. split; [done|]. apply lookup_delete_eq.
  - split; [done|]. split; [done|]. split; [done|].
    split; [intros c Hc; by apply lookup_insert_ne|].
    split; [|done]. intros _. exists (activated perf).
    split; [apply lookup_insert_eq|done].
Qed.

(** X14.  The errors of the services [acpi_cpufreq_cpu_init] calls reach
    its caller unchanged, through the [unsigned int] variable [result]:
    a failed registration returns its own error; a failed allocation of
    the frequency table returns [-ENOMEM]; a failed validation of the
    table returns its own error, with the transition latency already
    written to the policy.  The slot is NULL in each case. *)
Theorem init_error_codes hw policy k r perf :
  kzalloc hw = true →
  acpi_processor_register_performance hw (cpu policy) = (r, perf) →
  - 2 ^ 31 ≤ r < 2 ^ 31 →
  (r ≠ 0 →
   acpi_cpufreq_cpu_init hw policy k
     = Some ((r, policy), without_slot (cpu policy) k))
  ∧
  (r = 0 → 1 < state_count perf →
   space_id (control_register perf) = ACPI_ADR_SPACE_FIXED_HARDWARE →
   space_id (status_register perf) = ACPI_ADR_SPACE_FIXED_HARDWARE →
   kcalloc hw = false →
   acpi_cpufreq_cpu_init hw policy k
     = Some ((- ENOMEM, policy), without_slot (cpu policy) k))
  ∧
  (∀ v,
     r = 0 → 1 < state_count perf →
     space_id (control_register perf) = ACPI_ADR_SPACE_FIXED_HARDWARE →
     space_id (status_register perf) = ACPI_ADR_SPACE_FIXED_HARDWARE →
     kcalloc hw = true →
     cpufreq_table_validate_and_show hw (table_init (states perf)) = v →
     - 2 ^ 31 ≤ v < 2 ^ 31 → v ≠ 0 →
     acpi_cpufreq_cpu_init hw policy k
       = Some ((v, latency_only_policy policy perf),
               without_slot (cpu policy) k)).
Proof.
  intros Hz Hreg Hr.
  assert (Hint : ∀ e, - 2 ^ 31 ≤ e < 2 ^ 31 → e ≠ 0 →
            nonzero (u32 e) = true ∧ int (u32 e) = e).
  { intros e He Hne.
    assert (int (u32 e) = e) as Hie.
    { unfold int, u32. rewrite Zplus_mod_idemp_l. by apply int_small. }
    split; [|done]. unfold nonzero.
    destruct (Z.eqb_spec (u32 e) 0) as [H0|]; [|done].
    rewrite H0 in Hie. by subst e. }
  unfold acpi_cpufreq_cpu_init. rewrite Hz, Hreg. kern_unfold.
  split; [|split].
  - intros Hne. destruct (Hint r Hr Hne) as [Hnz Hir].
    rewrite Hnz. unfold init_fail, without_slot. kern_unfold.
    by rewrite delete_insert_eq, Hir.
  - intros -> Hn Hc Hs Hk. simpl.
    destruct (Z.leb_spec (state_count perf) 1); [lia|].
    rewrite Hc, Hs, Z.eqb_refl, Hk. simpl.
    unfold init_fail, without_slot. kern_unfold.
    by rewrite delete_insert_eq.
  - intros v -> Hn Hc Hs Hk <- Hv Hne. simpl.
    destruct (Hint _ Hv Hne) as [Hnz Hir].
    destruct (Z.leb_spec (state_count perf) 1); [lia|].
    rewrite Hc, Hs, Z.eqb_refl, Hk. simpl. rewrite Hnz.
    unfold init_fail, without_slot, latency_only_policy. kern_unfold.
    by rewrite delete_insert_eq, Hir.
Qed.

(** Registration fails with [-ENODEV] on processor 0. *)
Lemma init_error_codes_witness :
  acpi_cpufreq_cpu_init Scenario.hw_no_pstates Scenario.policy0
    Scenario.k_boot
  = Some ((- ENODEV, Scenario.policy0), without_slot 0 Scenario.k_boot).
Proof.
  refine (proj1 (init_error_codes Scenario.hw_no_pstates Scenario.policy0
                   Scenario.k_boot (- ENODEV) Scenario.table4 _ _ _) _).
  - reflexivity.
  - reflexivity.
  - vm_compute. intuition congruence.
  - discriminate.
Defined.

(** X15.  Activation followed by deactivation restores the kernel state:
    from a state where the processor's slot is NULL,
    [acpi_cpufreq_cpu_init], whether it succeeds or fails at any stage,
    followed by [acpi_cpufreq_cpu_exit] leaves exactly that state. *)
Theorem init_then_exit_restores hw policy k :
  acpi_io_data k !! cpu policy = None →
  ∃ ret policy' k1,
    acpi_cpufreq_cpu_init hw policy k = Some ((ret, policy'), k1) ∧
    acpi_cpufreq_cpu_exit policy' k1 = Some (0, k).
Proof.
  intros Hnone.
  destruct (init_cases hw policy k)
    as [[Hz H]|[(Hz & ret & p & Hret & Hcpu & H)|(Hz & perf & _ & Hn & H)]];
    rewrite H; eexists _, _, _; (split; [done|]); rewrite exit_run.
  - by rewrite Hnone.
  - rewrite Hcpu. simpl. rewrite lookup_delete_eq.
    by rewrite without_slot_absent.
  - simpl. rewrite lookup_insert_eq. unfold without_slot, with_slot. simpl.
    rewrite delete_insert_eq, delete_id by done. by rewrite kernel_eta.
Qed.

(** Activation of processor 0 from the boot state, then deactivation. *)
Lemma init_then_exit_restores_witness :
  ∃ ret policy' k1,
    acpi_cpufreq_cpu_init Scenario.hw_ok Scenario.policy0 Scenario.k_boot
      = Some ((ret, policy'), k1) ∧
    acpi_cpufreq_cpu_exit policy' k1 = Some (0, Scenario.k_boot).
Proof.
  apply (init_then_exit_restores Scenario.hw_ok Scenario.policy0
           Scenario.k_boot).
  reflexivity.
Defined.

(** X16.  The transition latency [acpi_cpufreq_cpu_init] reports is the
    maximum over the operating points of the declared latency times 1000,
    and 0 for no point, as long as every product fits the policy's
    [unsigned int] field. *)
Theorem transition_latency_is_maximum l :
  (∀ px, px ∈ l → 0 ≤ transition_latency px * 1000 < 2 ^ 32) →
  (∀ px, px ∈ l →
     transition_latency px * 1000 ≤ detect_transition_latency l) ∧
  (l = [] → detect_transition_latency l = 0) ∧
  (l ≠ [] →
   ∃ px, px ∈ l ∧ detect_transition_latency l = transition_latency px * 1000).
Proof.
  intros Hfit.
  destruct (latency_loop_max l 0 Hfit) as (Hacc & Hall & Hor).
  split; [done|]. split; [by intros ->|].
  intros Hne. destruct Hor as [H0|?]; [|done].
  destruct l as [|x l]; [done|]. exists x. split; [by left|].
  unfold detect_transition_latency. rewrite H0.
  assert (transition_latency x * 1000 ≤ 0).
  { rewrite <- H0. apply Hall. by left. }
  assert (0 ≤ transition_latency x * 1000 < 2 ^ 32).
  { apply Hfit. by left. }
  lia.
Qed.

(** The four-point table: every latency is 10 microseconds. *)
Lemma transition_latency_is_maximum_witness :
  (∀ px, px ∈ Scenario.four_points →
     transition_latency px * 1000
     ≤ detect_transition_latency Scenario.four_points) ∧
  (Scenario.four_points = [] →
   detect_transition_latency Scenario.four_points = 0) ∧
  (Scenario.four_points ≠ [] →
   ∃ px, px ∈ Scenario.four_points ∧
         detect_transition_latency Scenario.four_points
         = transition_latency px * 1000).
Proof.
  apply (transition_latency_is_maximum Scenario.four_points).
  intros px Hpx. unfold Scenario.four_points in Hpx.
  repeat (apply elem_of_cons in Hpx as [->|Hpx]; [vm_compute; intuition congruence|]).
  by apply elem_of_nil in Hpx.
Defined.

(** X17.  How the two hardware accessors report the PAL status.
    [processor_set_pstate] issues one [PAL_SET_PSTATE] and returns 0 for
    status 0 and [-ENODEV] for every other status.
    [processor_get_pstate] issues one [PAL_GET_PSTATE] and returns the
    status cut to an [int]: the status itself when it fits, and 0 (which
    its caller takes for success) exactly when the low 32 bits of the
    status are 0; it stores the low 32 bits of the index whatever the
    status is. *)
Theorem pal_status_conversion hw value k :
  (∃ ret,
     processor_set_pstate hw value k
       = Some (ret, after_call (PAL_SET_PSTATE (u64 value)) k) ∧
     (ret = 0 ∨ ret = - ENODEV) ∧
     (ret = 0 ↔ ia64_pal_set_pstate hw (u64 value) = 0))
  ∧
  (∃ ret stored,
     processor_get_pstate hw k
       = Some ((ret, stored), after_call PAL_GET_PSTATE k) ∧
     (ret = 0 ↔ (ia64_pal_get_pstate hw).1 mod 2 ^ 32 = 0) ∧
     (- 2 ^ 31 ≤ (ia64_pal_get_pstate hw).1 < 2 ^ 31 →
      ret = (ia64_pal_get_pstate hw).1) ∧
     stored = (ia64_pal_get_pstate hw).2 mod 2 ^ 32).
Proof.
  split.
  - unfold processor_set_pstate. kern_unfold.
    destruct (nonzero _) eqn:E.
    + apply nonzero_true in E. eexists. split; [done|].
      split; [by right|]. split; [done|]. intros ?. done.
    + apply nonzero_false in E. rewrite E. eexists. split; [done|].
      split; [by left|]. done.
  - rewrite processor_get_pstate_run. eexists _, _. split; [done|].
    split; [|split; [apply int_small|done]].
    split.
    + apply int_zero_u32.
    + intros Hz. unfold int.
      rewrite <- Zplus_mod_idemp_l. fold (u32 (ia64_pal_get_pstate hw).1).
      unfold u32. rewrite Hz. reflexivity.
Qed.

(** X18.  A transition does not consume the resume flag.  With the flag
    set, after a successful transition to a different index the next
    request for that same index writes the control value to the hardware
    a second time and only then clears the flag; from then on requests
    for that index are no-ops. *)
Theorem target_after_transition_recommits hw1 hw2 policy index k d px :
  acpi_io_data k !! cpu policy = Some d →
  valid_index d index →
  index ≠ state (acpi_data d) →
  resume d ≠ 0 →
  states (acpi_data d) !! Z.to_nat index = Some px →
  pinned hw1 (cpu policy) →
  ia64_pal_set_pstate hw1 (u32 (control px)) = 0 →
  pinned hw2 (cpu policy) →
  ∃ k1 ret k2 d2,
    acpi_cpufreq_target hw1 policy index k = Some (0, k1) ∧
    acpi_cpufreq_target hw2 policy index k1 = Some (ret, k2) ∧
    pal_calls k2
      = pal_calls k ++ [PAL_SET_PSTATE (u32 (control px));
                        PAL_SET_PSTATE (u32 (control px))] ∧
    acpi_io_data k2 !! cpu policy = Some d2 ∧
    resume d2 = 0 ∧
    state (acpi_data d2) = index ∧
    ∀ hw3, pinned hw3 (cpu policy) →
           acpi_cpufreq_target hw3 policy index k2 = Some (0, k2).
Proof.
  intros Hd Hv Hne Hflag Hpx Hpin1 Hok Hpin2.
  destruct (valid_index_int _ _ Hv) as [Hi Hu]. destruct Hv as [[??] ?].
  rewrite (target_run _ _ _ _ _ Hd), pinned_test, Hi, Hu by done.
  rewrite subscript_lookup, Hpx by lia. simpl. rewrite Hok.
  destruct (Z.eqb_spec index (state (acpi_data d))); [done|]. simpl.
  exists (with_slot (cpu policy) (set_state index d)
            (after_call (PAL_SET_PSTATE (u32 (control px))) k)).
  assert (Hd1 : acpi_io_data
                  (with_slot (cpu policy) (set_state index d)
                     (after_call (PAL_SET_PSTATE (u32 (control px))) k))
                  !! cpu policy = Some (set_state index d))
    by apply lookup_insert_eq.
  assert (Hr : nonzero (resume d) = true).
  { unfold nonzero. by destruct (Z.eqb_spec (resume d) 0). }
  rewrite (target_run _ _ _ _ _ Hd1), pinned_test, Hi, Hu by done.
  rewrite subscript_lookup by lia. simpl.
  rewrite Hpx, Z.eqb_refl, Hr. simpl.
  destruct (nonzero (ia64_pal_set_pstate hw2 _)).
  all: eexists _, _, _; split; [done|]; split; [done|]; simpl.
  all: rewrite <- app_assoc, lookup_insert_eq.
  all: split; [done|]; split; [done|]; split; [done|]; split; [done|].
  all: intros hw3 Hpin3.
  all: eapply target_fast_path; [apply lookup_insert_eq| |done|done].
  all: simpl; by rewrite Hi.
Qed.

(** Processor 0 after activation: two requests for state 2. *)
Lemma target_after_transition_recommits_witness :
  ∃ k1 ret k2 d2,
    acpi_cpufreq_target Scenario.hw_ok Scenario.policy0 2
      (Scenario.k_managed 1) = Some (0, k1) ∧
    acpi_cpufreq_target Scenario.hw_ok Scenario.policy0 2 k1
      = Some (ret, k2) ∧
    pal_calls k2
      = pal_calls (Scenario.k_managed 1)
        ++ [PAL_SET_PSTATE (u32 (control (Scenario.point 2200 0x3 0x30)));
            PAL_SET_PSTATE (u32 (control (Scenario.point 2200 0x3 0x30)))] ∧
    acpi_io_data k2 !! 0 = Some d2 ∧
    resume d2 = 0 ∧
    state (acpi_data d2) = 2 ∧
    ∀ hw3, pinned hw3 0 →
           acpi_cpufreq_target hw3 Scenario.policy0 2 k2 = Some (0, k2).
Proof.
  apply (target_after_transition_recommits Scenario.hw_ok Scenario.hw_ok
           Scenario.policy0 2 (Scenario.k_managed 1) (Scenario.entry 1)
           (Scenario.point 2200 0x3 0x30)).
  - reflexivity.
  - unfold valid_index. vm_compute. intuition congruence.
  - vm_compute. discriminate.
  - vm_compute. discriminate.
  - reflexivity.
  - reflexivity.
  - reflexivity.
  - reflexivity.
Defined.

(** X19.  [acpi_cpufreq_get] reads the hardware, not the driver's
    belief: the frequency it returns does not depend on the current index
    or the resume flag stored in the object. *)
Theorem get_ignores_cached_state hw cpu k d v flag :
  acpi_io_data k !! cpu = Some d →
  fst <$> acpi_cpufreq_get hw cpu
            (with_slot cpu (set_resume flag (set_state v d)) k)
  = fst <$> acpi_cpufreq_get hw cpu k.
Proof.
  intros Hd. rewrite !get_run. simpl. rewrite lookup_insert_eq, Hd. simpl.
  assert (He : ∀ val, extract_clock (set_resume flag (set_state v d)) val cpu
                      = extract_clock d val cpu) by done.
  rewrite He.
  destruct (_ =? cpu); simpl; [|done].
  destruct (nonzero _); simpl; [done|].
  by destruct (extract_clock d _ cpu).
Qed.

(** Processor 0 with the index and the flag overwritten. *)
Lemma get_ignores_cached_state_witness :
  fst <$> acpi_cpufreq_get Scenario.hw_ok 0
            (with_slot 0 (set_resume 1 (set_state 3 (Scenario.entry 0)))
               (Scenario.k_managed 0))
  = fst <$> acpi_cpufreq_get Scenario.hw_ok 0 (Scenario.k_managed 0).
Proof.
  apply (get_ignores_cached_state Scenario.hw_ok 0 (Scenario.k_managed 0)
           (Scenario.entry 0) 3 1).
  reflexivity.
Defined.

(** ** The scenarios of the specification, run *)

(** Four points, current index 0, resume flag set.  A request for state 0
    commits the control value of state 0 once, keeps the index and clears
    the flag; a request for state 2 then commits the control value of
    state 2 and the index becomes 2. *)
Example scenario_resume_then_transition :
  ∃ k1 k2,
    acpi_cpufreq_target Scenario.hw_ok Scenario.policy0 0
      (Scenario.k_managed 1) = Some (0, k1) ∧
    pal_calls k1 = [PAL_SET_PSTATE 0x1] ∧
    acpi_io_data k1 !! 0
      = Some {| acpi_data := Scenario.table4; resume := 0 |} ∧
    acpi_cpufreq_target Scenario.hw_ok Scenario.policy0 2 k1
      = Some (0, k2) ∧
    pal_calls k2 = [PAL_SET_PSTATE 0x1; PAL_SET_PSTATE 0x3] ∧
    acpi_io_data k2 !! 0
      = Some (set_state 2 {| acpi_data := Scenario.table4; resume := 0 |}).
Proof.
  eexists _, _. repeat split; vm_compute; reflexivity.
Qed.

(** A status value that is in no entry reports the last entry. *)
Example scenario_fallback_frequency :
  acpi_cpufreq_get Scenario.hw_unknown_status 0 (Scenario.k_managed 0)
    = Some (1800 * 1000, after_call PAL_GET_PSTATE (Scenario.k_managed 0)).
Proof. vm_compute. reflexivity. Qed.

(** Status 0x20 reports the entry that has it. *)
Example scenario_exact_frequency :
  acpi_cpufreq_get Scenario.hw_ok 0 (Scenario.k_managed 0)
    = Some (2600 * 1000, after_call PAL_GET_PSTATE (Scenario.k_managed 0)).
Proof. vm_compute. reflexivity. Qed.
